(** * A model-dispatch HTTP endpoint (src/mcp_server/main.py)

    The program routes a request naming a model to one of the handlers of a
    registry and shapes the outcome: a success envelope, a 404 for an unknown
    model, a 500 for a handler that raised.

    The embedding keeps Python's object model where the program can observe
    it: dicts and lists are objects of a heap, reached through references, so
    that [{"echo": context}] aliases the caller's dict instead of copying it;
    functions that allocate or raise are written in a state-and-exception
    monad over that heap.

    Ints are unbounded and the heap has no size limit: the limits of an
    interpreter (recursion depth, the digit limit of int-to-str conversion,
    memory) are not part of the model. *)

From Stdlib Require Import ZArith String Ascii List DecimalString.
From stdpp Require Import gmap strings list.

Local Open Scope Z_scope.
Local Open Scope string_scope.
Local Open Scope list_scope.

(** ** Python values and the heap *)

Abbreviation loc := nat.

(** A value is an immutable scalar or a reference to a container object.
    A float is carried by its IEEE-754 binary64 bit pattern: the program
    never computes with one, it only prints it. *)
Inductive value : Type :=
| VNone
| VBool (b : bool)
| VInt (z : Z)
| VFloat (bits : Z)
| VStr (s : string)
| VRef (l : loc).

(** A dict keeps its items in insertion order, each key once. *)
Inductive object : Type :=
| ODict (items : list (string * value))
| OList (elems : list value).

Abbreviation heap := (list object).

(** The value a dict holds for a key, if any. *)
Fixpoint dict_lookup (items : list (string * value)) (key : string) : option value :=
  match items with
  | [] => None
  | (k, v) :: rest => if String.eqb k key then Some v else dict_lookup rest key
  end.

(** [dict.get(key, default)] *)
Definition dict_get (items : list (string * value)) (key : string) (default : value) : value :=
  match dict_lookup items key with
  | Some v => v
  | None => default
  end.

(** [dict[key] = v]: an existing key keeps its position. *)
Fixpoint dict_set (items : list (string * value)) (key : string) (v : value) : list (string * value) :=
  match items with
  | [] => [(key, v)]
  | (k, w) :: rest => if String.eqb k key then (k, v) :: rest else (k, w) :: dict_set rest key v
  end.

(** A heap is closed when every reference stored in it points into it. *)
Definition value_ok (n : nat) (v : value) : bool :=
  match v with
  | VRef l => (l <? n)%nat
  | _ => true
  end.

Definition object_ok (n : nat) (o : object) : bool :=
  match o with
  | ODict items => forallb (fun kv : string * value => value_ok n kv.2) items
  | OList elems => forallb (value_ok n) elems
  end.

Definition heap_closed (h : heap) : Prop :=
  forallb (object_ok (length h)) h = true.

(** ** A state-and-exception monad

    A computation runs on a state [St] and either returns a value or raises
    an exception of type [E]. It yields [None] only on a state that no run of
    the interpreter can produce (a dangling reference). *)

Inductive result (E A : Type) : Type :=
| Ret (a : A)
| Raise (e : E).
Arguments Ret {E A} a.
Arguments Raise {E A} e.

Definition M (St E A : Type) : Type := St -> option (result E A * St).

Section MonadOps.
Context {St E : Type}.

Definition ret {A} (a : A) : M St E A := fun s => Some (Ret a, s).

Definition raise {A} (e : E) : M St E A := fun s => Some (Raise e, s).

Definition bind {A B} (m : M St E A) (k : A -> M St E B) : M St E B :=
  fun s =>
    match m s with
    | None => None
    | Some (Ret a, s') => k a s'
    | Some (Raise e, s') => Some (Raise e, s')
    end.

End MonadOps.

Declare Scope py_scope.
Delimit Scope py_scope with py.
Notation "'let*' x ':=' m 'in' k" := (bind m (fun x => k))
  (at level 10, x name, m at level 100, k at level 200) : py_scope.
Local Open Scope py_scope.

(** ** Heap operations *)

(** A dict display [{k1: v1, ...}] allocates a new object. *)
Definition new_dict {E} (items : list (string * value)) : M heap E value :=
  fun h => Some (Ret (VRef (length h)), h ++ [ODict items]).

Definition new_list {E} (elems : list value) : M heap E value :=
  fun h => Some (Ret (VRef (length h)), h ++ [OList elems]).

(** Exceptions a handler can raise: whether the class derives from
    [Exception] (as opposed to [BaseException] alone, like [KeyboardInterrupt]
    and [SystemExit]) and what [str(e)] gives. *)
Record pyexn : Type := PyExn {
  exn_is_Exception : bool;
  exn_str : string
}.

(** [AttributeError] of a failed method lookup *)
Definition AttributeError (type_name attr : string) : pyexn :=
  PyExn true ("'" +:+ type_name +:+ "' object has no attribute '" +:+ attr +:+ "'").

(** [context.get(key, default)] through a reference. Only a dict has [get]. *)
Definition get_method (context : loc) (key : string) (default : value) : M heap pyexn value :=
  fun h =>
    match h !! context with
    | Some (ODict items) => Some (Ret (dict_get items key default), h)
    | Some (OList _) => Some (Raise (AttributeError "list" "get"), h)
    | None => None
    end.

(** ** [repr], [str] and f-string formatting *)

(** [str(n)] for an int: decimal digits, a leading [-] when negative. *)
Definition int_str (z : Z) : string := NilEmpty.string_of_int (Z.to_int z).

Section Formatting.
(** [repr] of a float (shortest round-tripping decimal) and of a str
    (quoting and escaping, which consults the Unicode tables) belong to the
    interpreter; the program only concatenates what they give. *)
Variable float_repr : Z -> string.
Variable str_repr : string -> string.

Definition repr_item (r : value -> option string) (kv : string * value) : option string :=
  option_map (fun s => str_repr kv.1 +:+ ": " +:+ s) (r kv.2).

(** [repr(v)], with the references whose [repr] is under way: a container
    met again inside itself prints as [{...}] or [[...]]. [n] bounds the
    nesting depth. *)
Fixpoint py_repr_fuel (n : nat) (h : heap) (visiting : list loc) (v : value) : option string :=
  match v with
  | VNone => Some "None"
  | VBool b => Some (if b then "True" else "False")
  | VInt z => Some (int_str z)
  | VFloat bits => Some (float_repr bits)
  | VStr s => Some (str_repr s)
  | VRef l =>
      match h !! l with
      | None => None
      | Some o =>
          if bool_decide (l ∈ visiting) then
            Some (match o with ODict _ => "{...}" | OList _ => "[...]" end)
          else
            match n with
            | O => None
            | S n' =>
                match o with
                | ODict items =>
                    option_map (fun parts => "{" +:+ String.concat ", " parts +:+ "}")
                      (mapM (repr_item (py_repr_fuel n' h (l :: visiting))) items)
                | OList elems =>
                    option_map (fun parts => "[" +:+ String.concat ", " parts +:+ "]")
                      (mapM (py_repr_fuel n' h (l :: visiting)) elems)
                end
            end
      end
  end.

(** No chain of distinct containers is longer than the heap. *)
Definition py_repr (h : heap) (v : value) : option string :=
  py_repr_fuel (length h) h [] v.

(** [str(v)], which is also [format(v, "")], what a replacement field
    [{v}] of an f-string inserts: a str as it is, anything else through
    [repr]. *)
Definition py_str (h : heap) (v : value) : option string :=
  match v with
  | VStr s => Some s
  | _ => py_repr h v
  end.

Definition format_value {E} (v : value) : M heap E string :=
  fun h =>
    match py_str h v with
    | Some s => Some (Ret s, h)
    | None => None
    end.
End Formatting.

(** ** Model handlers *)

(** A handler takes the context dict and the optional parameters dict, both
    by reference, and returns a value or raises. *)
Definition handler : Type := loc -> option loc -> M heap pyexn value.

Definition echo_model_handler : handler :=
  fun context parameters =>
    new_dict [("echo", VRef context)].

Section Handlers.
Variable float_repr : Z -> string.
Variable str_repr : string -> string.

Definition greeting_model_handler : handler :=
  fun context parameters =>
    let* name := get_method context "name" (VStr "World") in
    let* text := format_value float_repr str_repr name in
    new_dict [("greeting", VStr ("Hello, " +:+ text +:+ "!"))].

(** ** Model registry *)

Definition MODEL_REGISTRY : gmap string handler :=
  {[ "echo-model" := echo_model_handler;
     "greeting-model" := greeting_model_handler ]}.
End Handlers.

(** ** The request *)

Record MCPRequest : Type := mkMCPRequest {
  model_id : string;
  context : loc;
  parameters : option loc
}.

(** ** The endpoint *)

(** What the endpoint works on: the heap, and the ids of the models whose
    handler it has called so far (a ghost log, written only by [call]). *)
Record world : Type := World {
  w_heap : heap;
  w_calls : list string
}.

(** What leaves the endpoint by [raise]: the validation error of a body that
    is no [MCPRequest] (HTTP 422), an [HTTPException], or an exception of a
    handler that no [except] clause caught. *)
Inductive raised : Type :=
| RequestValidationError
| HTTPException (status_code : Z) (detail : value)
| Uncaught (e : pyexn).

Definition on_heap {E A} (m : M heap E A) : M world E A :=
  fun w =>
    match m (w_heap w) with
    | None => None
    | Some (r, h') => Some (r, World h' (w_calls w))
    end.

(** [handler(context, parameters)], logged under the model's id. *)
Definition call (id : string) (f : handler) (c : loc) (p : option loc) : M world pyexn value :=
  fun w => on_heap (f c p) (World (w_heap w) (w_calls w ++ [id])).

(** [try: body  except Exception as e: on_error(e)]. An exception outside
    the [Exception] hierarchy passes through. *)
Definition try_except_Exception {A} (body : M world pyexn A)
    (on_error : pyexn -> M world raised A) : M world raised A :=
  fun w =>
    match body w with
    | None => None
    | Some (Ret a, w') => Some (Ret a, w')
    | Some (Raise e, w') =>
        if exn_is_Exception e then on_error e w' else Some (Raise (Uncaught e), w')
    end.

(** [invoke_model], with the table that [MODEL_REGISTRY] names when the
    request arrives. A function object is truthy, so [not handler] holds
    exactly when the lookup gave [None]. *)
Definition invoke_model (registry : gmap string handler) (request : MCPRequest)
    : M world raised value :=
  match registry !! model_id request with
  | None =>
      let* error := on_heap (new_dict
        [("code", VInt 404);
         ("message", VStr ("Model '" +:+ model_id request +:+ "' not found."))]) in
      let* detail := on_heap (new_dict
        [("model_id", VStr (model_id request)); ("error", error)]) in
      raise (HTTPException 404 detail)
  | Some handler =>
      try_except_Exception
        (let* result := call (model_id request) handler (context request) (parameters request) in
         on_heap (new_dict [("model_id", VStr (model_id request)); ("result", result)]))
        (fun e =>
           let* error := on_heap (new_dict
             [("code", VInt 500); ("message", VStr (exn_str e))]) in
           let* detail := on_heap (new_dict
             [("model_id", VStr (model_id request)); ("error", error)]) in
           raise (HTTPException 500 detail))
  end.

(** ** JSON bodies *)

#[local] Set Warnings "-register-all".

(** The tree a JSON text denotes; a number without fraction or exponent is
    an int, any other a float. *)
Inductive json : Type :=
| JNull
| JBool (b : bool)
| JInt (z : Z)
| JFloat (bits : Z)
| JStr (s : string)
| JList (elems : list json)
| JDict (members : list (string * json)).

Section MapM.
Context {St E A B : Type}.
Variable f : A -> M St E B.

(** run [f] on each element, left to right *)
Fixpoint for_each (xs : list A) : M St E (list B) :=
  match xs with
  | [] => ret []
  | x :: rest =>
      let* y := f x in
      let* ys := for_each rest in
      ret (y :: ys)
  end.
End MapM.

(** The dict of a list of pairs: a repeated key keeps its first position and
    its last value. *)
Definition dict_of_pairs (pairs : list (string * value)) : list (string * value) :=
  fold_left (fun items kv => dict_set items kv.1 kv.2) pairs [].

(** Decoding: every array and object becomes a new object of the heap. *)
Fixpoint load {E} (j : json) : M heap E value :=
  match j with
  | JNull => ret VNone
  | JBool b => ret (VBool b)
  | JInt z => ret (VInt z)
  | JFloat bits => ret (VFloat bits)
  | JStr s => ret (VStr s)
  | JList elems =>
      let* vs := for_each load elems in
      new_list vs
  | JDict members =>
      let* pairs := for_each (fun '(k, x) => let* v := load x in ret (k, v)) members in
      new_dict (dict_of_pairs pairs)
  end.

(** Encoding: the tree of a value, read off the heap down to depth [n]. *)
Fixpoint json_of (n : nat) (h : heap) (v : value) : option json :=
  match v with
  | VNone => Some JNull
  | VBool b => Some (JBool b)
  | VInt z => Some (JInt z)
  | VFloat bits => Some (JFloat bits)
  | VStr s => Some (JStr s)
  | VRef l =>
      match n with
      | O => None
      | S n' =>
          match h !! l with
          | None => None
          | Some (ODict items) =>
              option_map JDict
                (mapM (fun kv => option_map (pair kv.1) (json_of n' h kv.2)) items)
          | Some (OList elems) =>
              option_map JList (mapM (json_of n' h) elems)
          end
      end
  end.

(** The member of an object that decoding keeps for a key: the last one. *)
Fixpoint json_member (key : string) (members : list (string * json)) : option json :=
  match members with
  | [] => None
  | (k, x) :: rest =>
      match json_member key rest with
      | Some y => Some y
      | None => if String.eqb k key then Some x else None
      end
  end.

(** Validation of a body against the fields of [MCPRequest]:
    [model_id: str], [context: Dict[str, Any]], both required, and
    [parameters: Dict[str, Any] | None = None]. Other members are ignored. *)
Definition MCPRequest_validate (body : json) : M heap raised MCPRequest :=
  match body with
  | JDict members =>
      match json_member "model_id" members, json_member "context" members with
      | Some (JStr id), Some (JDict c) =>
          match json_member "parameters" members with
          | None | Some JNull =>
              let* cv := load (JDict c) in
              match cv with
              | VRef cl => ret (mkMCPRequest id cl None)
              | _ => raise RequestValidationError
              end
          | Some (JDict p) =>
              let* cv := load (JDict c) in
              let* pv := load (JDict p) in
              match cv, pv with
              | VRef cl, VRef pl => ret (mkMCPRequest id cl (Some pl))
              | _, _ => raise RequestValidationError
              end
          | Some _ => raise RequestValidationError
          end
      | _, _ => raise RequestValidationError
      end
  | _ => raise RequestValidationError
  end.

(** [POST /invoke]: the body is validated into the [request] argument, then
    [invoke_model] runs. *)
Definition post_invoke (registry : gmap string handler) (body : json) : M world raised value :=
  let* request := on_heap (MCPRequest_validate body) in
  invoke_model registry request.

(** The status code of the response. *)
Definition status_code_of (r : result raised value) : Z :=
  match r with
  | Ret _ => 200
  | Raise RequestValidationError => 422
  | Raise (HTTPException code _) => code
  | Raise (Uncaught _) => 500
  end.

(** What one step of decoding does: it only allocates, and on a closed heap
    it leaves a closed heap and results that point into it. *)
Definition decodes {E A} (ok : nat -> A -> Prop) (m : M heap E A) : Prop :=
  forall h : heap,
    exists (a : A) (ext : heap),
      m h = Some (Ret a, h ++ ext) /\
      (heap_closed h -> heap_closed (h ++ ext) /\ ok (length (h ++ ext)) a).

(** The JSON of what a run of the endpoint answers: the returned value, or
    the detail of the [HTTPException]. *)
Definition answer_json (n : nat) (run : option (result raised value * world)) : option json :=
  match run with
  | Some (Ret v, w) => json_of n (w_heap w) v
  | Some (Raise (HTTPException _ detail), w) => json_of n (w_heap w) detail
  | _ => None
  end.

Definition answer_status (run : option (result raised value * world)) : option Z :=
  match run with
  | Some (r, _) => Some (status_code_of r)
  | None => None
  end.

(** ** Envelopes

    The dicts the endpoint builds, named for the statements below:
    [{"model_id": id, "result": result}] on success and
    [{"model_id": id, "error": {"code": code, "message": message}}] as the
    detail of an [HTTPException]. *)
Definition envelope_dict (id : string) (result : value) : object :=
  ODict [("model_id", VStr id); ("result", result)].

Definition error_dict (code : Z) (message : string) : object :=
  ODict [("code", VInt code); ("message", VStr message)].

Definition detail_dict (id : string) (error : loc) : object :=
  ODict [("model_id", VStr id); ("error", VRef error)].

(** ** Handlers for examples

    Two handlers that a registry could hold besides the shipped ones:
    [raise ValueError("boom")], and [sys.exit("shutdown")], which raises
    [SystemExit], a class that derives from [BaseException] only. *)
Definition failing_handler : handler :=
  fun context parameters => raise (PyExn true "boom").

Definition exiting_handler : handler :=
  fun context parameters => raise (PyExn false "shutdown").

(** ** Text of messages *)

(** [needle in text] for two strs *)
Fixpoint contains (text needle : string) : bool :=
  if String.prefix needle text then true
  else
    match text with
    | EmptyString => false
    | String _ rest => contains rest needle
    end.

(** ** Sample interpreter functions

    The theorems below hold whatever [float_repr] and [str_repr] are. Where
    an example has to name a pair of them it takes these: single quotes
    around the text, which is [repr] of a str that needs no escaping, and
    the text of one float. *)
Definition sample_float_repr (bits : Z) : string := "0.0".
Definition sample_str_repr (s : string) : string := "'" +:+ s +:+ "'".

(** A heap with a context [{"name": "Jules"}] at 0 and parameters
    [{"x": 1}] at 1. *)
Definition sample_heap : heap :=
  [ODict [("name", VStr "Jules")]; ODict [("x", VInt 1)]].

(** ** Bodies with distinct keys *)

Fixpoint distinct (keys : list string) : bool :=
  match keys with
  | [] => true
  | k :: rest => negb (existsb (String.eqb k) rest) && distinct rest
  end.

(** No object of the tree repeats a key. *)
Fixpoint json_wf (j : json) : bool :=
  match j with
  | JList elems => forallb json_wf elems
  | JDict members =>
      distinct (map fst members) && forallb (fun '(_, x) => json_wf x) members
  | _ => true
  end.

(** How deep arrays and objects nest. *)
Fixpoint json_depth (j : json) : nat :=
  match j with
  | JList elems => S (fold_right (fun x d => Nat.max (json_depth x) d) 0%nat elems)
  | JDict members =>
      S (fold_right (fun '(_, x) d => Nat.max (json_depth x) d) 0%nat members)
  | _ => 0%nat
  end.

(** The value of a JSON scalar; arrays and objects have none, they decode
    to references. *)
Definition scalar_of (j : json) : option value :=
  match j with
  | JNull => Some VNone
  | JBool b => Some (VBool b)
  | JInt z => Some (VInt z)
  | JFloat bits => Some (VFloat bits)
  | JStr s => Some (VStr s)
  | JList _ | JDict _ => None
  end.

(** ** The endpoint on trees

    What the shipped endpoint answers, computed on the JSON tree of the body
    alone, with no heap: [repr] and [str] of a tree, then the status and the
    JSON of the answer. It is the reference the heap model is compared
    with. *)

Section Reference.
Variable float_repr : Z -> string.
Variable str_repr : string -> string.

Fixpoint json_repr (j : json) : string :=
  match j with
  | JNull => "None"
  | JBool b => if b then "True" else "False"
  | JInt z => int_str z
  | JFloat bits => float_repr bits
  | JStr s => str_repr s
  | JList elems => "[" +:+ String.concat ", " (map json_repr elems) +:+ "]"
  | JDict members =>
      "{" +:+ String.concat ", "
                (map (fun '(k, x) => str_repr k +:+ ": " +:+ json_repr x) members) +:+ "}"
  end.

Definition json_str (j : json) : string :=
  match j with
  | JStr s => s
  | _ => json_repr j
  end.

Definition parameters_ok (members : list (string * json)) : bool :=
  match json_member "parameters" members with
  | None | Some JNull | Some (JDict _) => true
  | Some _ => false
  end.

Definition reference_answer (body : json) : Z * option json :=
  match body with
  | JDict members =>
      match json_member "model_id" members, json_member "context" members,
            parameters_ok members with
      | Some (JStr id), Some (JDict c), true =>
          if String.eqb id "echo-model" then
            (200, Some (JDict [("model_id", JStr id);
                               ("result", JDict [("echo", JDict c)])]))
          else if String.eqb id "greeting-model" then
            let name := match json_member "name" c with
                        | Some x => x
                        | None => JStr "World"
                        end in
            (200, Some (JDict [("model_id", JStr id);
                               ("result",
                                JDict [("greeting",
                                        JStr ("Hello, " +:+ json_str name +:+ "!"))])]))
          else
            (404, Some (JDict [("model_id", JStr id);
                               ("error",
                                JDict [("code", JInt 404);
                                       ("message",
                                        JStr ("Model '" +:+ id +:+ "' not found."))])]))
      | _, _, _ => (422, None)
      end
  | _ => (422, None)
  end.
End Reference.

(** ** The liveness endpoint *)

(** [GET /]: [read_root] returns a new dict with the fixed message. *)
Definition read_root : M world raised value :=
  on_heap (new_dict [("message", VStr "MCP Server is running")]).

(** * Properties *)

(** ** Closed heaps *)

Lemma value_ok_lt (n : nat) (l : loc) : value_ok n (VRef l) = true -> (l < n)%nat.
Proof. simpl. intros H. by apply Nat.ltb_lt. Qed.

Lemma value_ok_mono (n m : nat) (v : value) :
  (n <= m)%nat -> value_ok n v = true -> value_ok m v = true.
Proof.
  intros Hle. destruct v; simpl; try done.
  rewrite !Nat.ltb_lt. lia.
Qed.

Lemma heap_closed_lookup (h : heap) (l : loc) (o : object) :
  heap_closed h -> h !! l = Some o -> object_ok (length h) o = true.
Proof.
  unfold heap_closed. rewrite forallb_forall. intros Hall Hl.
  apply Hall. apply list_elem_of_In. by eapply list_elem_of_lookup_2.
Qed.

Lemma dict_lookup_ok (n : nat) (items : list (string * value)) (key : string) (v : value) :
  object_ok n (ODict items) = true -> dict_lookup items key = Some v -> value_ok n v = true.
Proof.
  simpl. induction items as [|[k w] rest IH]; simpl; [done|].
  rewrite andb_true_iff. intros [Hw Hrest].
  destruct (String.eqb k key); [by intros [= <-] | by apply IH].
Qed.

Lemma dict_get_ok (n : nat) (items : list (string * value)) (key : string) (d : value) :
  object_ok n (ODict items) = true -> value_ok n d = true ->
  value_ok n (dict_get items key d) = true.
Proof.
  intros Hit Hd. unfold dict_get.
  destruct (dict_lookup items key) eqn:Hk; [by eapply dict_lookup_ok | done].
Qed.

(** Distinct locations of a heap are no more than its objects. *)
Lemma visiting_bound (n : nat) (visiting : list loc) :
  NoDup visiting -> Forall (fun l => (l < n)%nat) visiting -> (length visiting <= n)%nat.
Proof.
  intros Hnd Hall.
  assert (visiting ⊆+ seq 0 n) as Hsub.
  { apply NoDup_submseteq; [done|].
    intros l Hl. rewrite Forall_forall in Hall. apply Hall in Hl.
    apply elem_of_seq. lia. }
  apply submseteq_length in Hsub. by rewrite length_seq in Hsub.
Qed.

(** ** [repr] and [str] are defined on closed heaps *)

Section FormattingFacts.
Variable float_repr : Z -> string.
Variable str_repr : string -> string.

Local Abbreviation repr_fuel := (py_repr_fuel float_repr str_repr).
Local Abbreviation py_repr := (py_repr float_repr str_repr).
Local Abbreviation py_str := (py_str float_repr str_repr).

Lemma py_repr_fuel_total (h : heap) :
  heap_closed h ->
  forall (n : nat) (visiting : list loc) (v : value),
    value_ok (length h) v = true ->
    NoDup visiting ->
    Forall (fun l => (l < length h)%nat) visiting ->
    (length h <= n + length visiting)%nat ->
    is_Some (repr_fuel n h visiting v).
Proof.
  intros Hclosed. induction n as [|n IH]; intros visiting v Hv Hnd Hvis Hfuel.
  - destruct v as [| | | | |l]; try (simpl; by eexists).
    cbn [py_repr_fuel].
    apply value_ok_lt in Hv.
    destruct (lookup_lt_is_Some_2 h l Hv) as [o Ho]. rewrite Ho.
    case_bool_decide as Hin; [by eexists|].
    exfalso.
    assert (length (l :: visiting) <= length h)%nat as Hb.
    { apply visiting_bound; [by constructor | by constructor]. }
    simpl in *. lia.
  - destruct v as [| | | | |l]; try (simpl; by eexists).
    cbn [py_repr_fuel].
    apply value_ok_lt in Hv.
    destruct (lookup_lt_is_Some_2 h l Hv) as [o Ho]. rewrite Ho.
    case_bool_decide as Hin; [by eexists|].
    pose proof (heap_closed_lookup h l o Hclosed Ho) as Hobj.
    assert (forall w, value_ok (length h) w = true ->
              is_Some (repr_fuel n h (l :: visiting) w)) as Hrec.
    { intros w Hw. apply IH; [done | by constructor | by constructor |].
      simpl. lia. }
    destruct o as [items|elems]; simpl in Hobj; rewrite forallb_forall in Hobj.
    + assert (is_Some (mapM (repr_item str_repr (repr_fuel n h (l :: visiting))) items))
        as [parts Hparts].
      { apply mapM_is_Some_2, Forall_forall. intros kv Hkv. simpl.
        unfold repr_item.
        destruct (Hrec kv.2) as [s Hs];
          [by apply Hobj, list_elem_of_In | rewrite Hs; by eexists]. }
      rewrite Hparts. by eexists.
    + assert (is_Some (mapM (repr_fuel n h (l :: visiting)) elems)) as [parts Hparts].
      { apply mapM_is_Some_2, Forall_forall. intros w Hw.
        by apply Hrec, Hobj, list_elem_of_In. }
      rewrite Hparts. by eexists.
Qed.

Lemma py_repr_total (h : heap) (v : value) :
  heap_closed h -> value_ok (length h) v = true -> is_Some (py_repr h v).
Proof.
  intros Hclosed Hv. apply py_repr_fuel_total; try done.
  - constructor.
  - simpl. lia.
Qed.

Lemma py_str_total (h : heap) (v : value) :
  heap_closed h -> value_ok (length h) v = true -> is_Some (py_str h v).
Proof.
  intros Hclosed Hv. destruct v; try by apply py_repr_total.
  by eexists.
Qed.

(** What [repr] gives does not change when objects are allocated or when
    more depth is allowed. *)
Lemma py_repr_fuel_stable (h ext : heap) :
  forall (n m : nat) (visiting : list loc) (v : value) (s : string),
    (n <= m)%nat ->
    repr_fuel n h visiting v = Some s ->
    repr_fuel m (h ++ ext) visiting v = Some s.
Proof.
  induction n as [|n IH]; intros m visiting v s Hle Hs.
  - destruct v as [| | | | |l]; try (destruct m; simpl in *; done).
    cbn [py_repr_fuel] in Hs.
    destruct (h !! l) as [o|] eqn:Ho; [|done].
    assert (repr_fuel m (h ++ ext) visiting (VRef l)
            = Some (match o with ODict _ => "{...}" | OList _ => "[...]" end)) as ->.
    { destruct m; cbn [py_repr_fuel];
        rewrite (lookup_app_l_Some _ _ _ _ Ho);
        case_bool_decide; done. }
    by case_bool_decide.
  - destruct v as [| | | | |l]; try (destruct m; simpl in *; done).
    + destruct m as [|m]; [lia|].
      cbn [py_repr_fuel] in *.
      destruct (h !! l) as [o|] eqn:Ho; [|done].
      rewrite (lookup_app_l_Some _ _ _ _ Ho).
      case_bool_decide; [done|].
      assert (forall w t, repr_fuel n h (l :: visiting) w = Some t ->
                repr_fuel m (h ++ ext) (l :: visiting) w = Some t) as Hrec.
      { intros w t Hw. apply (IH m); [lia | done]. }
      destruct o as [items|elems].
      * destruct (mapM (repr_item str_repr (repr_fuel n h (l :: visiting))) items)
          as [parts|] eqn:Hparts; [|done].
        apply mapM_Some_1 in Hparts.
        erewrite (mapM_Some_2 _ items parts); [done|].
        eapply Forall2_impl; [exact Hparts|].
        intros kv t. unfold repr_item.
        destruct (repr_fuel n h (l :: visiting) kv.2) as [u|] eqn:Hu; [|done].
        by rewrite (Hrec _ _ Hu).
      * destruct (mapM (repr_fuel n h (l :: visiting)) elems)
          as [parts|] eqn:Hparts; [|done].
        apply mapM_Some_1 in Hparts.
        erewrite (mapM_Some_2 _ elems parts); [done|].
        eapply Forall2_impl; [exact Hparts|]. eauto.
Qed.

Lemma py_str_stable (h ext : heap) (v : value) (s : string) :
  py_str h v = Some s -> py_str (h ++ ext) v = Some s.
Proof.
  destruct v; simpl; try done;
    unfold py_repr; intros Hs;
    (eapply py_repr_fuel_stable; [|exact Hs]; rewrite length_app; lia).
Qed.

(** [str] of the scalars *)
Lemma py_str_scalars (h : heap) :
  py_str h VNone = Some "None" /\
  (forall b : bool, py_str h (VBool b) = Some (if b then "True" else "False")) /\
  (forall z : Z, py_str h (VInt z) = Some (int_str z)) /\
  (forall bits : Z, py_str h (VFloat bits) = Some (float_repr bits)) /\
  (forall s : string, py_str h (VStr s) = Some s).
Proof.
  repeat split; intros;
    cbv [py_str py_repr]; try reflexivity; by destruct (length h).
Qed.
End FormattingFacts.

(** ** Strings *)

Lemma prefix_append (s t : string) : String.prefix s (s +:+ t) = true.
Proof.
  induction s as [|a s IH]; simpl; [by destruct t|].
  destruct (ascii_dec a a); [done | congruence].
Qed.

Lemma contains_unfold (text needle : string) :
  contains text needle
  = if String.prefix needle text then true
    else match text with
         | EmptyString => false
         | String _ rest => contains rest needle
         end.
Proof. by destruct text. Qed.

Lemma contains_prefix (s t : string) : contains (s +:+ t) s = true.
Proof. by rewrite contains_unfold, prefix_append. Qed.

Lemma contains_append (pre text needle : string) :
  contains text needle = true -> contains (pre +:+ text) needle = true.
Proof.
  intros H. induction pre as [|a pre IH]; [done|].
  rewrite contains_unfold.
  destruct (String.prefix needle _); [done | exact IH].
Qed.

(** ** The registry *)

Section RegistryFacts.
Variable float_repr : Z -> string.
Variable str_repr : string -> string.

Local Abbreviation registry := (MODEL_REGISTRY float_repr str_repr).
Local Abbreviation greeting := (greeting_model_handler float_repr str_repr).

Lemma MODEL_REGISTRY_lookup (id : string) (f : handler) :
  registry !! id = Some f ->
  (id = "echo-model" /\ f = echo_model_handler) \/
  (id = "greeting-model" /\ f = greeting).
Proof.
  unfold MODEL_REGISTRY. rewrite lookup_insert_Some, lookup_singleton_Some.
  intros [[<- <-] | [_ [<- <-]]]; auto.
Qed.

Lemma MODEL_REGISTRY_keys (id : string) :
  is_Some (registry !! id) <-> id = "echo-model" \/ id = "greeting-model".
Proof.
  split.
  - intros [f Hf]. apply MODEL_REGISTRY_lookup in Hf as [[-> _] | [-> _]]; auto.
  - intros [-> | ->]; by eexists.
Qed.

(** ** The handlers, step by step *)

Lemma echo_model_handler_run (c : loc) (p : option loc) (h : heap) :
  echo_model_handler c p h
  = Some (Ret (VRef (length h)), h ++ [ODict [("echo", VRef c)]]).
Proof. reflexivity. Qed.

Lemma greeting_model_handler_run (c : loc) (p : option loc) (h : heap)
    (items : list (string * value)) (text : string) :
  h !! c = Some (ODict items) ->
  py_str float_repr str_repr h (dict_get items "name" (VStr "World")) = Some text ->
  greeting c p h
  = Some (Ret (VRef (length h)),
          h ++ [ODict [("greeting", VStr ("Hello, " +:+ text +:+ "!"))]]).
Proof.
  intros Hc Htext.
  unfold greeting_model_handler, bind, get_method, format_value.
  rewrite Hc, Htext. reflexivity.
Qed.

Lemma greeting_model_handler_list (c : loc) (p : option loc) (h : heap)
    (elems : list value) :
  h !! c = Some (OList elems) ->
  greeting c p h = Some (Raise (AttributeError "list" "get"), h).
Proof.
  intros Hc. unfold greeting_model_handler, bind, get_method. by rewrite Hc.
Qed.

(** Whatever a shipped handler does, it does it by allocating at most one object. *)
Lemma handler_run_inv (id : string) (f : handler) (c : loc) (p : option loc)
    (h h' : heap) (r : result pyexn value) :
  registry !! id = Some f ->
  f c p h = Some (r, h') ->
  (exists o, r = Ret (VRef (length h)) /\ h' = h ++ [o]) \/
  (exists e, r = Raise e /\ h' = h).
Proof.
  intros Hf Hrun. apply MODEL_REGISTRY_lookup in Hf as [[_ ->] | [_ ->]].
  - rewrite echo_model_handler_run in Hrun. injection Hrun as <- <-. eauto.
  - unfold greeting_model_handler, bind, get_method, format_value in Hrun.
    destruct (h !! c) as [[items|elems]|]; [| |done].
    + destruct (py_str _ _ h _); [|done]. injection Hrun as <- <-. eauto.
    + injection Hrun as <- <-. eauto.
Qed.
End RegistryFacts.

(** ** The dispatcher, branch by branch *)

Section Dispatch.
Variable registry : gmap string handler.

Lemma invoke_model_miss (request : MCPRequest) (w : world) :
  registry !! model_id request = None ->
  invoke_model registry request w
  = Some (Raise (HTTPException 404 (VRef (S (length (w_heap w))))),
          World (w_heap w ++
                   [error_dict 404 ("Model '" +:+ model_id request +:+ "' not found.");
                    detail_dict (model_id request) (length (w_heap w))])
                (w_calls w)).
Proof.
  intros Hmiss. unfold invoke_model. rewrite Hmiss.
  unfold bind, on_heap, new_dict, raise. cbn [w_heap w_calls].
  rewrite length_app, <- app_assoc. cbn [length app].
  by rewrite Nat.add_1_r.
Qed.

Lemma invoke_model_returns (request : MCPRequest) (w : world) (f : handler)
    (v : value) (h' : heap) :
  registry !! model_id request = Some f ->
  f (context request) (parameters request) (w_heap w) = Some (Ret v, h') ->
  invoke_model registry request w
  = Some (Ret (VRef (length h')),
          World (h' ++ [envelope_dict (model_id request) v])
                (w_calls w ++ [model_id request])).
Proof.
  intros Hhit Hrun. unfold invoke_model. rewrite Hhit.
  unfold try_except_Exception, bind, call, on_heap, new_dict.
  cbn [w_heap w_calls]. rewrite Hrun. reflexivity.
Qed.

Lemma invoke_model_catches (request : MCPRequest) (w : world) (f : handler)
    (e : pyexn) (h' : heap) :
  registry !! model_id request = Some f ->
  f (context request) (parameters request) (w_heap w) = Some (Raise e, h') ->
  exn_is_Exception e = true ->
  invoke_model registry request w
  = Some (Raise (HTTPException 500 (VRef (S (length h')))),
          World (h' ++ [error_dict 500 (exn_str e);
                        detail_dict (model_id request) (length h')])
                (w_calls w ++ [model_id request])).
Proof.
  intros Hhit Hrun Hexc. unfold invoke_model. rewrite Hhit.
  unfold try_except_Exception, bind, call, on_heap, new_dict, raise.
  cbn [w_heap w_calls]. rewrite Hrun. cbn [w_heap w_calls]. rewrite Hexc.
  cbn [w_heap w_calls].
  rewrite length_app, <- app_assoc. cbn [length app].
  by rewrite Nat.add_1_r.
Qed.

Lemma invoke_model_passes (request : MCPRequest) (w : world) (f : handler)
    (e : pyexn) (h' : heap) :
  registry !! model_id request = Some f ->
  f (context request) (parameters request) (w_heap w) = Some (Raise e, h') ->
  exn_is_Exception e = false ->
  invoke_model registry request w
  = Some (Raise (Uncaught e), World h' (w_calls w ++ [model_id request])).
Proof.
  intros Hhit Hrun Hexc. unfold invoke_model. rewrite Hhit.
  unfold try_except_Exception, bind, call, on_heap.
  cbn [w_heap w_calls]. rewrite Hrun. cbn [w_heap w_calls]. by rewrite Hexc.
Qed.
End Dispatch.

(** ** Decoding a body *)

Lemma json_nested_ind (P : json -> Prop) :
  P JNull ->
  (forall b, P (JBool b)) ->
  (forall z, P (JInt z)) ->
  (forall bits, P (JFloat bits)) ->
  (forall s, P (JStr s)) ->
  (forall elems, Forall P elems -> P (JList elems)) ->
  (forall members, Forall (fun kv : string * json => P kv.2) members -> P (JDict members)) ->
  forall j, P j.
Proof.
  intros HNull HBool HInt HFloat HStr HList HDict.
  fix IH 1. intros [| b | z | bits | s | elems | members].
  - exact HNull.
  - apply HBool.
  - apply HInt.
  - apply HFloat.
  - apply HStr.
  - apply HList. induction elems as [|j elems IHelems]; constructor; [apply IH | exact IHelems].
  - apply HDict. induction members as [|[k j] members IHm]; constructor; [apply IH | exact IHm].
Qed.

Lemma object_ok_mono (n m : nat) (o : object) :
  (n <= m)%nat -> object_ok n o = true -> object_ok m o = true.
Proof.
  intros Hle. destruct o as [items|elems]; simpl; rewrite !forallb_forall;
    intros Hall x Hx; eapply value_ok_mono; eauto.
Qed.

Lemma heap_closed_alloc (h : heap) (o : object) :
  heap_closed h -> object_ok (length h) o = true -> heap_closed (h ++ [o]).
Proof.
  unfold heap_closed. rewrite !forallb_forall. intros Hh Ho x Hx.
  rewrite length_app. simpl.
  apply in_app_or in Hx as [Hx | [<- | []]].
  - eapply object_ok_mono; [|by apply Hh]. lia.
  - eapply object_ok_mono; [|exact Ho]. lia.
Qed.

Lemma dict_set_ok (n : nat) (items : list (string * value)) (key : string) (v : value) :
  object_ok n (ODict items) = true -> value_ok n v = true ->
  object_ok n (ODict (dict_set items key v)) = true.
Proof.
  simpl. intros Hitems Hv.
  induction items as [|[k w] rest IH]; simpl in *; [by rewrite Hv|].
  apply andb_true_iff in Hitems as [Hw Hrest].
  destruct (String.eqb k key); simpl; [by rewrite Hv | by rewrite Hw, IH].
Qed.

Lemma dict_of_pairs_ok (n : nat) (pairs : list (string * value)) :
  Forall (fun kv => value_ok n kv.2 = true) pairs ->
  object_ok n (ODict (dict_of_pairs pairs)) = true.
Proof.
  unfold dict_of_pairs.
  assert (forall acc, object_ok n (ODict acc) = true ->
            Forall (fun kv => value_ok n kv.2 = true) pairs ->
            object_ok n (ODict (fold_left (fun items kv => dict_set items kv.1 kv.2) pairs acc))
            = true) as Hgen.
  { induction pairs as [|[k v] rest IH]; intros acc Hacc Hall; [done|].
    inversion Hall; subst. simpl. apply IH; [|done]. by apply dict_set_ok. }
  intros Hall. by apply Hgen.
Qed.

Lemma for_each_decodes {E A B} (ok : nat -> B -> Prop) (f : A -> M heap E B)
    (xs : list A) :
  (forall (n m : nat) (b : B), (n <= m)%nat -> ok n b -> ok m b) ->
  Forall (fun x => decodes ok (f x)) xs ->
  decodes (fun n ys => Forall (ok n) ys) (for_each f xs).
Proof.
  intros Hmono Hall. induction Hall as [|x xs Hx _ IH]; intros h.
  - exists [], []. rewrite app_nil_r. split; [done|]. intros Hc. split; [done | constructor].
  - destruct (Hx h) as (b & ext1 & Hrun1 & Hc1).
    destruct (IH (h ++ ext1)) as (ys & ext2 & Hrun2 & Hc2).
    exists (b :: ys), (ext1 ++ ext2). split.
    + cbn [for_each]. unfold bind at 1. rewrite Hrun1.
      unfold bind at 1. rewrite Hrun2. by rewrite app_assoc.
    + intros Hc. destruct (Hc1 Hc) as [Hc1' Hb]. destruct (Hc2 Hc1') as [Hc2' Hys].
      rewrite app_assoc. split; [done|]. constructor; [|done].
      eapply Hmono; [|exact Hb]. rewrite !length_app. lia.
Qed.

Lemma load_JList {E} (elems : list json) :
  @load E (JList elems) = (let* vs := for_each load elems in new_list vs).
Proof. reflexivity. Qed.

Lemma load_JDict {E} (members : list (string * json)) :
  @load E (JDict members)
  = (let* pairs := for_each (fun '(k, x) => let* v := load x in ret (k, v)) members in
     new_dict (dict_of_pairs pairs)).
Proof. reflexivity. Qed.

Lemma load_decodes {E} (j : json) :
  decodes (fun n v => value_ok n v = true) (@load E j).
Proof.
  induction j as [| b | z | bits | s | elems IH | members IH] using json_nested_ind;
    try (intros h; eexists _, []; rewrite app_nil_r; by split).
  - intros h.
    destruct (for_each_decodes (fun n v => value_ok n v = true) (@load E) elems) with (h := h)
      as (vs & ext & Hrun & Hc); [by eauto using value_ok_mono | done |].
    exists (VRef (length (h ++ ext))), (ext ++ [OList vs]). split.
    + rewrite load_JList. unfold bind. rewrite Hrun. unfold new_list. by rewrite app_assoc.
    + intros Hclosed. destruct (Hc Hclosed) as [Hc' Hvs]. rewrite app_assoc. split.
      * apply heap_closed_alloc; [done|]. simpl. apply forallb_forall.
        intros v Hv. rewrite Forall_forall in Hvs. by apply Hvs, list_elem_of_In.
      * simpl. apply Nat.ltb_lt. rewrite (length_app (h ++ ext)). simpl. lia.
  - intros h.
    destruct (for_each_decodes (fun n (kv : string * value) => value_ok n kv.2 = true)
                (fun '(k, x) => let* v := @load E x in ret (k, v)) members) with (h := h)
      as (pairs & ext & Hrun & Hc).
    { intros n m kv Hle. by apply value_ok_mono. }
    { eapply Forall_impl; [exact IH|]. intros [k x] Hx h0. simpl in Hx.
      destruct (Hx h0) as (v & ext0 & Hrun0 & Hc0).
      exists (k, v), ext0. split; [|done].
      unfold bind. by rewrite Hrun0. }
    exists (VRef (length (h ++ ext))), (ext ++ [ODict (dict_of_pairs pairs)]). split.
    + rewrite load_JDict. unfold bind at 1. rewrite Hrun. unfold new_dict.
      by rewrite app_assoc.
    + intros Hclosed. destruct (Hc Hclosed) as [Hc' Hps]. rewrite app_assoc. split.
      * apply heap_closed_alloc; [done|]. by apply dict_of_pairs_ok.
      * simpl. apply Nat.ltb_lt. rewrite (length_app (h ++ ext)). simpl. lia.
Qed.

(** Decoding an object gives a reference to a new dict. *)
Lemma load_object {E} (members : list (string * json)) (h : heap) :
  exists (l : loc) (items : list (string * value)) (ext : heap),
    @load E (JDict members) h = Some (Ret (VRef l), h ++ ext) /\
    (h ++ ext) !! l = Some (ODict items) /\
    (heap_closed h -> heap_closed (h ++ ext)).
Proof.
  destruct (@load_decodes E (JDict members) h) as (v & ext & Hrun & Hc).
  rewrite load_JDict in Hrun. unfold bind at 1 in Hrun.
  destruct (for_each _ members h) as [[[pairs|e] h1]|] eqn:Hfor; [|done..].
  unfold new_dict in Hrun. injection Hrun as <- Hext.
  exists (length h1), (dict_of_pairs pairs), ext. split; [|split].
  - rewrite load_JDict. unfold bind at 1. rewrite Hfor. unfold new_dict. by rewrite Hext.
  - rewrite <- Hext. rewrite lookup_app_r by lia. by rewrite Nat.sub_diag.
  - intros Hclosed. by apply Hc.
Qed.

(** A body with a str [model_id], an object [context] and, if any, a null
    or object [parameters] is accepted, whatever the str. *)
Lemma MCPRequest_validate_accepts (members c : list (string * json)) (id : string)
    (h : heap) :
  json_member "model_id" members = Some (JStr id) ->
  json_member "context" members = Some (JDict c) ->
  (json_member "parameters" members = None \/
   json_member "parameters" members = Some JNull \/
   exists p, json_member "parameters" members = Some (JDict p)) ->
  exists (request : MCPRequest) (items : list (string * value)) (ext : heap),
    MCPRequest_validate (JDict members) h = Some (Ret request, h ++ ext) /\
    model_id request = id /\
    (h ++ ext) !! context request = Some (ODict items) /\
    (heap_closed h -> heap_closed (h ++ ext)).
Proof.
  intros Hid Hctx Hpar. unfold MCPRequest_validate. rewrite Hid, Hctx.
  destruct (@load_object raised c h) as (cl & items & ext & Hrun & Hcl & Hclosed).
  assert (bind (load (JDict c))
            (fun cv => match cv with
                       | VRef l => ret (mkMCPRequest id l None)
                       | _ => raise RequestValidationError
                       end) h
          = Some (Ret (mkMCPRequest id cl None), h ++ ext)) as Hnone.
  { unfold bind. by rewrite Hrun. }
  destruct Hpar as [-> | [-> | [p ->]]].
  - exists (mkMCPRequest id cl None), items, ext. by rewrite Hnone.
  - exists (mkMCPRequest id cl None), items, ext. by rewrite Hnone.
  - destruct (@load_object raised p (h ++ ext)) as (pl & pitems & ext2 & Hrun2 & _ & Hclosed2).
    exists (mkMCPRequest id cl (Some pl)), items, (ext ++ ext2). split; [|split; [|split]].
    + unfold bind at 1. rewrite Hrun. unfold bind at 1. rewrite Hrun2.
      by rewrite app_assoc.
    + done.
    + rewrite app_assoc. by apply lookup_app_l_Some.
    + intros Hc. rewrite app_assoc. auto.
Qed.

(** ** The endpoint from the body on *)

Lemma post_invoke_accepted (registry : gmap string handler) (body : json) (w : world)
    (request : MCPRequest) (h' : heap) :
  MCPRequest_validate body (w_heap w) = Some (Ret request, h') ->
  post_invoke registry body w = invoke_model registry request (World h' (w_calls w)).
Proof.
  intros Hval. unfold post_invoke, bind, on_heap. by rewrite Hval.
Qed.

Lemma MODEL_REGISTRY_empty_id (float_repr : Z -> string) (str_repr : string -> string) :
  MODEL_REGISTRY float_repr str_repr !! "" = None.
Proof.
  destruct (MODEL_REGISTRY float_repr str_repr !! "") as [f|] eqn:Hf; [|done].
  by apply MODEL_REGISTRY_lookup in Hf as [[? _] | [? _]].
Qed.

(** ** Encoding *)

(** The tree of a value does not change when objects are allocated or when
    more depth is allowed. *)
Lemma json_of_stable (h ext : heap) :
  forall (n m : nat) (v : value) (j : json),
    (n <= m)%nat -> json_of n h v = Some j -> json_of m (h ++ ext) v = Some j.
Proof.
  induction n as [|n IH]; intros m v j Hle Hj.
  - destruct v; destruct m; simpl in *; done.
  - destruct v as [| | | | |l]; try (destruct m; simpl in *; done).
    destruct m as [|m]; [lia|]. cbn [json_of] in *.
    destruct (h !! l) as [o|] eqn:Ho; [|done].
    rewrite (lookup_app_l_Some _ _ _ _ Ho).
    assert (forall w t, json_of n h w = Some t -> json_of m (h ++ ext) w = Some t) as Hrec.
    { intros w t Hw. apply (IH m); [lia | done]. }
    destruct o as [items|elems].
    + destruct (mapM _ items) as [parts|] eqn:Hparts; [|done].
      apply mapM_Some_1 in Hparts.
      erewrite (mapM_Some_2 _ items parts); [done|].
      eapply Forall2_impl; [exact Hparts|].
      intros kv t. cbn beta.
      destruct (json_of n h kv.2) as [u|] eqn:Hu; [|done].
      by rewrite (Hrec _ _ Hu).
    + destruct (mapM _ elems) as [parts|] eqn:Hparts; [|done].
      apply mapM_Some_1 in Hparts.
      erewrite (mapM_Some_2 _ elems parts); [done|].
      eapply Forall2_impl; [exact Hparts|]. eauto.
Qed.

Lemma json_of_dict1 (n : nat) (h : heap) (l : loc) (k : string) (v : value) (j : json) :
  h !! l = Some (ODict [(k, v)]) ->
  json_of n h v = Some j ->
  json_of (S n) h (VRef l) = Some (JDict [(k, j)]).
Proof.
  intros Hl Hv. cbn [json_of]. rewrite Hl.
  erewrite mapM_Some_2; [reflexivity|].
  repeat constructor. cbn [fst snd]. by rewrite Hv.
Qed.

Lemma json_of_dict2 (n : nat) (h : heap) (l : loc) (k1 k2 : string) (v1 v2 : value)
    (j1 j2 : json) :
  h !! l = Some (ODict [(k1, v1); (k2, v2)]) ->
  json_of n h v1 = Some j1 ->
  json_of n h v2 = Some j2 ->
  json_of (S n) h (VRef l) = Some (JDict [(k1, j1); (k2, j2)]).
Proof.
  intros Hl Hv1 Hv2. cbn [json_of]. rewrite Hl.
  erewrite mapM_Some_2; [reflexivity|].
  repeat constructor; cbn [fst snd]; [by rewrite Hv1 | by rewrite Hv2].
Qed.

Lemma json_of_str (n : nat) (h : heap) (s : string) : json_of n h (VStr s) = Some (JStr s).
Proof. by destruct n. Qed.

(** ** The tests of the repository (test_main.py), replayed *)

Section Tests.
Local Abbreviation registry := (MODEL_REGISTRY sample_float_repr sample_str_repr).
Local Abbreviation start := (World [] []).

Example test_invoke_echo_model :
  let run := post_invoke registry
    (JDict [("model_id", JStr "echo-model");
            ("context", JDict [("key", JStr "value"); ("number", JInt 123)])]) start in
  answer_status run = Some 200 /\
  answer_json 3 run
  = Some (JDict [("model_id", JStr "echo-model");
                 ("result",
                  JDict [("echo", JDict [("key", JStr "value"); ("number", JInt 123)])])]).
Proof. split; vm_compute; reflexivity. Qed.

Example test_invoke_greeting_model_with_name :
  let run := post_invoke registry
    (JDict [("model_id", JStr "greeting-model");
            ("context", JDict [("name", JStr "Jules")])]) start in
  answer_status run = Some 200 /\
  answer_json 3 run
  = Some (JDict [("model_id", JStr "greeting-model");
                 ("result", JDict [("greeting", JStr "Hello, Jules!")])]).
Proof. split; vm_compute; reflexivity. Qed.

Example test_invoke_greeting_model_default_name :
  let run := post_invoke registry
    (JDict [("model_id", JStr "greeting-model"); ("context", JDict [])]) start in
  answer_status run = Some 200 /\
  answer_json 3 run
  = Some (JDict [("model_id", JStr "greeting-model");
                 ("result", JDict [("greeting", JStr "Hello, World!")])]).
Proof. split; vm_compute; reflexivity. Qed.

Example test_invoke_model_not_found :
  let run := post_invoke registry
    (JDict [("model_id", JStr "non-existent-model"); ("context", JDict [])]) start in
  answer_status run = Some 404 /\
  answer_json 3 run
  = Some (JDict [("model_id", JStr "non-existent-model");
                 ("error",
                  JDict [("code", JInt 404);
                         ("message", JStr "Model 'non-existent-model' not found.")])]).
Proof. split; vm_compute; reflexivity. Qed.

Example test_invoke_malformed_request_missing_model_id :
  answer_status (post_invoke registry (JDict [("context", JDict [])]) start) = Some 422.
Proof. vm_compute. reflexivity. Qed.

Example test_invoke_malformed_request_missing_context :
  answer_status (post_invoke registry (JDict [("model_id", JStr "echo-model")]) start)
  = Some 422.
Proof. vm_compute. reflexivity. Qed.

(** [repr] at work: a list in a dict, and a list that contains itself. *)
Example greeting_of_a_list :
  answer_json 3 (post_invoke registry
    (JDict [("model_id", JStr "greeting-model");
            ("context", JDict [("name", JList [JStr "a"; JDict [("k", JInt (-3))];
                                               JBool true; JNull])])]) start)
  = Some (JDict [("model_id", JStr "greeting-model");
                 ("result",
                  JDict [("greeting", JStr "Hello, ['a', {'k': -3}, True, None]!")])]).
Proof. vm_compute. reflexivity. Qed.

Example repr_of_a_cycle :
  py_repr sample_float_repr sample_str_repr [OList [VRef 0%nat; VInt 2]] (VRef 0%nat)
  = Some "[[...], 2]".
Proof. vm_compute. reflexivity. Qed.

Example int_str_examples :
  int_str 0 = "0" /\ int_str 123 = "123" /\ int_str (-45) = "-45".
Proof. repeat split; reflexivity. Qed.
End Tests.

(** * Specified properties *)

(** C1. For every model id that is a key of the registry, every context
    dict and every optional parameters value, [invoke_model] returns the
    success envelope: a new dict whose [model_id] is the requested id and
    whose [result] is the value the registered handler returns on that
    context and those parameters. The handler is called once. *)
Theorem C1_registered_model_success :
  forall (float_repr : Z -> string) (str_repr : string -> string)
         (request : MCPRequest) (f : handler) (w : world)
         (items : list (string * value)),
    MODEL_REGISTRY float_repr str_repr !! model_id request = Some f ->
    heap_closed (w_heap w) ->
    w_heap w !! context request = Some (ODict items) ->
    exists (v : value) (h' : heap),
      f (context request) (parameters request) (w_heap w) = Some (Ret v, h') /\
      invoke_model (MODEL_REGISTRY float_repr str_repr) request w
      = Some (Ret (VRef (length h')),
              World (h' ++ [envelope_dict (model_id request) v])
                    (w_calls w ++ [model_id request])).
Proof.
  intros fr sr request f w items Hkey Hclosed Hctx.
  assert (exists v h', f (context request) (parameters request) (w_heap w)
                       = Some (Ret v, h')) as (v & h' & Hrun).
  { destruct (MODEL_REGISTRY_lookup fr sr _ _ Hkey) as [[_ ->] | [_ ->]].
    - rewrite echo_model_handler_run. eauto.
    - destruct (py_str_total fr sr (w_heap w) (dict_get items "name" (VStr "World")))
        as [text Htext]; [done | |].
      { apply dict_get_ok; [by eapply heap_closed_lookup | done]. }
      erewrite greeting_model_handler_run by done. eauto. }
  exists v, h'. split; [done|].
  by apply invoke_model_returns with (f := f).
Qed.

Lemma C1_registered_model_success_witness :
  exists (v : value) (h' : heap),
    echo_model_handler 0%nat None [ODict [("key", VStr "value")]] = Some (Ret v, h') /\
    invoke_model (MODEL_REGISTRY sample_float_repr sample_str_repr)
      (mkMCPRequest "echo-model" 0%nat None) (World [ODict [("key", VStr "value")]] [])
    = Some (Ret (VRef (length h')),
            World (h' ++ [envelope_dict "echo-model" v]) ([] ++ ["echo-model"])).
Proof.
  apply (C1_registered_model_success sample_float_repr sample_str_repr
           (mkMCPRequest "echo-model" 0%nat None) echo_model_handler
           (World [ODict [("key", VStr "value")]] []) [("key", VStr "value")]).
  - vm_compute. reflexivity.
  - reflexivity.
  - reflexivity.
Defined.

(** C2. For every model id that is not a key of the registry, whatever the
    registry holds, [invoke_model] raises [HTTPException] with status 404;
    its detail is a new dict carrying the id and an error of code 404 whose
    message is [Model '<id>' not found.], a text that contains the id and
    the words [not found]. No handler is called, and no object that existed
    is changed. *)
Theorem C2_unknown_model_not_found :
  forall (registry : gmap string handler) (request : MCPRequest) (w : world),
    registry !! model_id request = None ->
    exists (message : string) (error detail : loc) (w' : world),
      invoke_model registry request w
      = Some (Raise (HTTPException 404 (VRef detail)), w') /\
      w_heap w' !! detail = Some (detail_dict (model_id request) error) /\
      w_heap w' !! error = Some (error_dict 404 message) /\
      message = "Model '" +:+ model_id request +:+ "' not found." /\
      contains message (model_id request) = true /\
      contains message "not found" = true /\
      w_calls w' = w_calls w /\
      (forall (l : loc) (o : object), w_heap w !! l = Some o -> w_heap w' !! l = Some o).
Proof.
  intros registry request w Hmiss.
  eexists _, (length (w_heap w)), (S (length (w_heap w))), _.
  split; [by apply invoke_model_miss|].
  cbn [w_heap w_calls]. repeat split.
  - rewrite lookup_app_r by lia.
    by replace (S (length (w_heap w)) - length (w_heap w))%nat with 1%nat by lia.
  - rewrite lookup_app_r by lia. by rewrite Nat.sub_diag.
  - apply contains_append, contains_prefix.
  - apply contains_append, contains_append.
    change "' not found." with ("' " +:+ "not found" +:+ ".").
    apply contains_append, contains_prefix.
  - intros l o Hl. by apply lookup_app_l_Some.
Qed.

Lemma C2_unknown_model_not_found_witness :
  exists (message : string) (error detail : loc) (w' : world),
    invoke_model (MODEL_REGISTRY sample_float_repr sample_str_repr)
      (mkMCPRequest "non-existent-model" 0%nat None) (World [ODict []] [])
    = Some (Raise (HTTPException 404 (VRef detail)), w') /\
    w_heap w' !! detail = Some (detail_dict "non-existent-model" error) /\
    w_heap w' !! error = Some (error_dict 404 message) /\
    message = "Model 'non-existent-model' not found." /\
    contains message "non-existent-model" = true /\
    contains message "not found" = true /\
    w_calls w' = [] /\
    (forall (l : loc) (o : object),
        [ODict []] !! l = Some o -> w_heap w' !! l = Some o).
Proof.
  apply (C2_unknown_model_not_found
           (MODEL_REGISTRY sample_float_repr sample_str_repr)
           (mkMCPRequest "non-existent-model" 0%nat None) (World [ODict []] [])).
  vm_compute. reflexivity.
Defined.

(** C3, as the code has it. For every model id of the registry and every
    request on which the looked-up handler raises an exception of the
    [Exception] hierarchy, [invoke_model] catches it and raises
    [HTTPException] with status 500, whose detail is a new dict carrying the
    id and an error of code 500 with [str(e)] as message; what leaves the
    endpoint is that [HTTPException], not the handler's exception. *)
Theorem C3_handler_exception_caught :
  forall (registry : gmap string handler) (request : MCPRequest) (f : handler)
         (w : world) (e : pyexn) (h' : heap),
    registry !! model_id request = Some f ->
    f (context request) (parameters request) (w_heap w) = Some (Raise e, h') ->
    exn_is_Exception e = true ->
    exists (error detail : loc) (w' : world),
      invoke_model registry request w
      = Some (Raise (HTTPException 500 (VRef detail)), w') /\
      w_heap w' !! detail = Some (detail_dict (model_id request) error) /\
      w_heap w' !! error = Some (error_dict 500 (exn_str e)) /\
      w_calls w' = w_calls w ++ [model_id request].
Proof.
  intros registry request f w e h' Hhit Hrun Hexc.
  exists (length h'), (S (length h')). eexists.
  split; [by eapply invoke_model_catches|].
  cbn [w_heap w_calls]. repeat split.
  - rewrite lookup_app_r by lia.
    by replace (S (length h') - length h')%nat with 1%nat by lia.
  - rewrite lookup_app_r by lia. by rewrite Nat.sub_diag.
Qed.

Lemma C3_handler_exception_caught_witness :
  exists (error detail : loc) (w' : world),
    invoke_model {[ "failing-model" := failing_handler ]}
      (mkMCPRequest "failing-model" 0%nat None) (World [ODict []] [])
    = Some (Raise (HTTPException 500 (VRef detail)), w') /\
    w_heap w' !! detail = Some (detail_dict "failing-model" error) /\
    w_heap w' !! error = Some (error_dict 500 "boom") /\
    w_calls w' = [] ++ ["failing-model"].
Proof.
  apply (C3_handler_exception_caught {[ "failing-model" := failing_handler ]}
           (mkMCPRequest "failing-model" 0%nat None) failing_handler
           (World [ODict []] []) (PyExn true "boom") [ODict []]).
  - vm_compute. reflexivity.
  - reflexivity.
  - reflexivity.
Defined.

(** C3, as stated, fails: a registered handler that raises [SystemExit]
    is not caught by [except Exception]; its exception leaves
    [invoke_model] as it is and no 500 outcome is produced. *)
Lemma C3_counterexample :
  ({[ "exiting-model" := exiting_handler ]} : gmap string handler) !! "exiting-model"
  = Some exiting_handler /\
  exiting_handler 0%nat None [ODict []]
  = Some (Raise (PyExn false "shutdown"), [ODict []]) /\
  invoke_model {[ "exiting-model" := exiting_handler ]}
    (mkMCPRequest "exiting-model" 0%nat None) (World [ODict []] [])
  = Some (Raise (Uncaught (PyExn false "shutdown")),
          World [ODict []] ["exiting-model"]).
Proof. repeat split; vm_compute; reflexivity. Qed.

(** C4, as the code has it. [model_id] has to be a str, and the empty str
    is one: a body whose [model_id] is the empty string, with an object as
    [context] and at most a null or an object as [parameters], passes
    validation; the registry is looked up, the empty string is no key of it,
    and the outcome is the 404 error with message [Model '' not found.]. No
    handler is called. *)
Theorem C4_empty_model_id_not_found :
  forall (float_repr : Z -> string) (str_repr : string -> string)
         (members c : list (string * json)) (w : world),
    json_member "model_id" members = Some (JStr "") ->
    json_member "context" members = Some (JDict c) ->
    (json_member "parameters" members = None \/
     json_member "parameters" members = Some JNull \/
     exists p, json_member "parameters" members = Some (JDict p)) ->
    exists (request : MCPRequest) (h' : heap) (error detail : loc) (w' : world),
      MCPRequest_validate (JDict members) (w_heap w) = Some (Ret request, h') /\
      model_id request = "" /\
      post_invoke (MODEL_REGISTRY float_repr str_repr) (JDict members) w
      = Some (Raise (HTTPException 404 (VRef detail)), w') /\
      w_heap w' !! detail = Some (detail_dict "" error) /\
      w_heap w' !! error = Some (error_dict 404 "Model '' not found.") /\
      w_calls w' = w_calls w.
Proof.
  intros fr sr members c w Hid Hctx Hpar.
  destruct (MCPRequest_validate_accepts members c "" (w_heap w) Hid Hctx Hpar)
    as (request & items & ext & Hval & Hreq & _ & _).
  pose proof (MODEL_REGISTRY_empty_id fr sr) as Hmiss. rewrite <- Hreq in Hmiss.
  exists request, (w_heap w ++ ext),
    (length (w_heap w ++ ext)), (S (length (w_heap w ++ ext))). eexists.
  split; [done|]. split; [done|]. split.
  { rewrite (post_invoke_accepted _ _ _ _ _ Hval). by apply invoke_model_miss. }
  cbn [w_heap w_calls]. rewrite Hreq. repeat split.
  - rewrite lookup_app_r by lia.
    by replace (S (length (w_heap w ++ ext)) - length (w_heap w ++ ext))%nat
      with 1%nat by lia.
  - rewrite lookup_app_r by lia. by rewrite Nat.sub_diag.
Qed.

Lemma C4_empty_model_id_not_found_witness :
  exists (request : MCPRequest) (h' : heap) (error detail : loc) (w' : world),
    MCPRequest_validate (JDict [("model_id", JStr ""); ("context", JDict [])]) []
    = Some (Ret request, h') /\
    model_id request = "" /\
    post_invoke (MODEL_REGISTRY sample_float_repr sample_str_repr)
      (JDict [("model_id", JStr ""); ("context", JDict [])]) (World [] [])
    = Some (Raise (HTTPException 404 (VRef detail)), w') /\
    w_heap w' !! detail = Some (detail_dict "" error) /\
    w_heap w' !! error = Some (error_dict 404 "Model '' not found.") /\
    w_calls w' = [].
Proof.
  apply (C4_empty_model_id_not_found sample_float_repr sample_str_repr
           [("model_id", JStr ""); ("context", JDict [])] [] (World [] [])).
  - reflexivity.
  - reflexivity.
  - left. reflexivity.
Defined.

(** C4, as stated, fails: the body [{"model_id": "", "context": {}}] is
    not rejected. Validation returns the request with the empty id, and the
    response is the 404 of a registry miss, not the 422 of an invalid
    body. *)
Lemma C4_counterexample :
  MCPRequest_validate (JDict [("model_id", JStr ""); ("context", JDict [])]) []
  = Some (Ret (mkMCPRequest "" 0%nat None), [ODict []]) /\
  post_invoke (MODEL_REGISTRY sample_float_repr sample_str_repr)
    (JDict [("model_id", JStr ""); ("context", JDict [])]) (World [] [])
  = Some (Raise (HTTPException 404 (VRef 2%nat)),
          World [ODict []; error_dict 404 "Model '' not found."; detail_dict "" 1%nat] []) /\
  status_code_of (Raise (HTTPException 404 (VRef 2%nat))) <> 422.
Proof. repeat split; vm_compute; (reflexivity || discriminate). Qed.



(** C6. For every context and every parameters value, the echo handler
    returns a new dict [{"echo": context}] whose only item refers to the
    context dict itself, and every object that existed is as it was; so when
    the context encodes as the JSON value [c], the result encodes as
    [{"echo": c}], and the envelope of [invoke_model] for [echo-model] as
    [{"model_id": "echo-model", "result": {"echo": c}}]. *)
Theorem C6_echo_handler :
  forall (float_repr : Z -> string) (str_repr : string -> string)
         (context : loc) (parameters : option loc) (h : heap) (calls : list string),
    echo_model_handler context parameters h
    = Some (Ret (VRef (length h)), h ++ [ODict [("echo", VRef context)]]) /\
    (forall (l : loc) (o : object),
        h !! l = Some o -> (h ++ [ODict [("echo", VRef context)]]) !! l = Some o) /\
    (forall (n : nat) (c : json),
        json_of n h (VRef context) = Some c ->
        json_of (S n) (h ++ [ODict [("echo", VRef context)]]) (VRef (length h))
        = Some (JDict [("echo", c)])) /\
    (forall (n : nat) (c : json),
        json_of n h (VRef context) = Some c ->
        exists (v : value) (w' : world),
          invoke_model (MODEL_REGISTRY float_repr str_repr)
            (mkMCPRequest "echo-model" context parameters) (World h calls)
          = Some (Ret v, w') /\
          json_of (S (S n)) (w_heap w') v
          = Some (JDict [("model_id", JStr "echo-model");
                         ("result", JDict [("echo", c)])])).
Proof.
  intros fr sr context parameters h calls.
  assert (forall (n : nat) (c : json),
            json_of n h (VRef context) = Some c ->
            json_of (S n) (h ++ [ODict [("echo", VRef context)]]) (VRef (length h))
            = Some (JDict [("echo", c)])) as Hecho.
  { intros n c Hc. apply json_of_dict1 with (v := VRef context).
    - rewrite lookup_app_r by lia. by rewrite Nat.sub_diag.
    - by apply json_of_stable with (n := n). }
  split; [reflexivity|]. split; [|split].
  - intros l o Hl. by apply lookup_app_l_Some.
  - exact Hecho.
  - intros n c Hc. eexists _, _. split.
    + eapply invoke_model_returns with (f := echo_model_handler); reflexivity.
    + cbn [w_heap model_id].
      apply json_of_dict2 with (v1 := VStr "echo-model") (v2 := VRef (length h)).
      * rewrite lookup_app_r by lia. by rewrite Nat.sub_diag.
      * apply json_of_str.
      * apply json_of_stable with (n := S n); [lia|]. by apply Hecho.
Qed.

Lemma C6_echo_handler_witness :
  echo_model_handler 0%nat None [ODict [("key", VStr "value"); ("number", VInt 123)]]
  = Some (Ret (VRef 1%nat),
          [ODict [("key", VStr "value"); ("number", VInt 123)]]
            ++ [ODict [("echo", VRef 0%nat)]]) /\
  json_of 2 ([ODict [("key", VStr "value"); ("number", VInt 123)]]
               ++ [ODict [("echo", VRef 0%nat)]]) (VRef 1%nat)
  = Some (JDict [("echo", JDict [("key", JStr "value"); ("number", JInt 123)])]) /\
  exists (v : value) (w' : world),
    invoke_model (MODEL_REGISTRY sample_float_repr sample_str_repr)
      (mkMCPRequest "echo-model" 0%nat None)
      (World [ODict [("key", VStr "value"); ("number", VInt 123)]] [])
    = Some (Ret v, w') /\
    json_of 3 (w_heap w') v
    = Some (JDict [("model_id", JStr "echo-model");
                   ("result",
                    JDict [("echo", JDict [("key", JStr "value"); ("number", JInt 123)])])]).
Proof.
  destruct (C6_echo_handler sample_float_repr sample_str_repr 0%nat None
              [ODict [("key", VStr "value"); ("number", VInt 123)]] [])
    as (Hrun & _ & Hresult & Henvelope).
  split; [exact Hrun|]. split.
  - apply (Hresult 1%nat). reflexivity.
  - apply (Henvelope 1%nat). reflexivity.
Defined.

(** C7. A call of either registered handler, on any context and any
    parameters, changes no object of the heap: the context dict and the
    parameters dict hold the items they held, and all the call leaves
    behind is the dict it returns, newly allocated. No handler keeps
    anything from one call to the next: a registered handler called after
    that call does what it would have done without it, returning a new dict
    with the same items or raising the same exception. *)
Theorem C7_handlers_mutate_nothing :
  forall (float_repr : Z -> string) (str_repr : string -> string)
         (id : string) (f : handler) (context : loc) (parameters : option loc)
         (h h' : heap) (r : result pyexn value),
    MODEL_REGISTRY float_repr str_repr !! id = Some f ->
    f context parameters h = Some (r, h') ->
    (forall (l : loc) (o : object), h !! l = Some o -> h' !! l = Some o) /\
    (forall items, h !! context = Some (ODict items) -> h' !! context = Some (ODict items)) /\
    (forall pl items, parameters = Some pl ->
        h !! pl = Some (ODict items) -> h' !! pl = Some (ODict items)) /\
    (exists new : heap, h' = h ++ new /\ (length new <= 1)%nat) /\
    (forall (id2 : string) (g : handler) (c2 : loc) (p2 : option loc)
            (r2 : result pyexn value) (h2 : heap),
        MODEL_REGISTRY float_repr str_repr !! id2 = Some g ->
        g c2 p2 h = Some (r2, h2) ->
        (exists o : object,
            r2 = Ret (VRef (length h)) /\ h2 = h ++ [o] /\
            g c2 p2 h' = Some (Ret (VRef (length h')), h' ++ [o])) \/
        (exists e : pyexn,
            r2 = Raise e /\ h2 = h /\ g c2 p2 h' = Some (Raise e, h'))).
Proof.
  intros fr sr id f context parameters h h' r Hf Hrun.
  assert (exists new : heap, h' = h ++ new /\ (length new <= 1)%nat) as (new & -> & Hnew).
  { destruct (handler_run_inv fr sr id f context parameters h h' r Hf Hrun)
      as [(o & _ & ->) | (e & _ & ->)].
    - exists [o]. split; [done | simpl; lia].
    - exists []. split; [by rewrite app_nil_r | simpl; lia]. }
  assert (forall (l : loc) (o : object), h !! l = Some o -> (h ++ new) !! l = Some o)
    as Hframe.
  { intros l o Hl. by apply lookup_app_l_Some. }
  split; [exact Hframe|]. split; [by auto|]. split; [by auto|].
  split; [by exists new|].
  intros id2 g c2 p2 r2 h2 Hg Hrun2.
  apply MODEL_REGISTRY_lookup in Hg as [[_ ->] | [_ ->]].
  - left. rewrite echo_model_handler_run in Hrun2. injection Hrun2 as <- <-.
    exists (ODict [("echo", VRef c2)]). by rewrite echo_model_handler_run.
  - unfold greeting_model_handler, bind, get_method, format_value in Hrun2.
    destruct (h !! c2) as [[items|elems]|] eqn:Hc2; [| |done].
    + destruct (py_str fr sr h (dict_get items "name" (VStr "World"))) as [text|] eqn:Htext;
        [|done].
      injection Hrun2 as <- <-. left. eexists. split; [done|]. split; [done|].
      apply greeting_model_handler_run with (items := items); [by apply Hframe|].
      by apply py_str_stable.
    + injection Hrun2 as <- <-. right. eexists. split; [done|]. split; [done|].
      apply greeting_model_handler_list with (elems := elems). by apply Hframe.
Qed.

Lemma C7_handlers_mutate_nothing_witness :
  (sample_heap ++ [ODict [("greeting", VStr "Hello, Jules!")]]) !! 0%nat
  = Some (ODict [("name", VStr "Jules")]) /\
  (sample_heap ++ [ODict [("greeting", VStr "Hello, Jules!")]]) !! 1%nat
  = Some (ODict [("x", VInt 1)]) /\
  (exists new : heap,
      sample_heap ++ [ODict [("greeting", VStr "Hello, Jules!")]] = sample_heap ++ new /\
      (length new <= 1)%nat) /\
  ((exists o : object,
       Ret (VRef 2%nat) = Ret (E := pyexn) (VRef (length sample_heap)) /\
       sample_heap ++ [ODict [("echo", VRef 0%nat)]] = sample_heap ++ [o] /\
       echo_model_handler 0%nat None
         (sample_heap ++ [ODict [("greeting", VStr "Hello, Jules!")]])
       = Some (Ret (VRef (length (sample_heap
                                    ++ [ODict [("greeting", VStr "Hello, Jules!")]]))),
               (sample_heap ++ [ODict [("greeting", VStr "Hello, Jules!")]]) ++ [o])) \/
   (exists e : pyexn,
       Ret (VRef 2%nat) = Raise e /\
       sample_heap ++ [ODict [("echo", VRef 0%nat)]] = sample_heap /\
       echo_model_handler 0%nat None
         (sample_heap ++ [ODict [("greeting", VStr "Hello, Jules!")]])
       = Some (Raise e, sample_heap ++ [ODict [("greeting", VStr "Hello, Jules!")]]))).
Proof.
  destruct (C7_handlers_mutate_nothing sample_float_repr sample_str_repr
              "greeting-model" (greeting_model_handler sample_float_repr sample_str_repr)
              0%nat (Some 1%nat) sample_heap
              (sample_heap ++ [ODict [("greeting", VStr "Hello, Jules!")]])
              (Ret (VRef 2%nat)))
    as (_ & Hctx & Hpar & Hnew & Hnext).
  - vm_compute. reflexivity.
  - reflexivity.
  - split; [apply Hctx; reflexivity|].
    split; [apply (Hpar 1%nat); reflexivity|].
    split; [exact Hnew|].
    apply (Hnext "echo-model" echo_model_handler 0%nat None).
    + vm_compute. reflexivity.
    + reflexivity.
Defined.

(** C8. With the shipped registry the outcome of [invoke_model] is the
    same for any two parameters values, absent ones included: the returned
    envelope or the error, every object of the heap and the calls made are
    identical. The outcome depends on the model id and the context alone,
    because neither registered handler looks at its parameters. *)
Theorem C8_parameters_do_not_matter :
  forall (float_repr : Z -> string) (str_repr : string -> string)
         (id : string) (ctx : loc) (p1 p2 : option loc) (w : world),
    invoke_model (MODEL_REGISTRY float_repr str_repr) (mkMCPRequest id ctx p1) w
    = invoke_model (MODEL_REGISTRY float_repr str_repr) (mkMCPRequest id ctx p2) w /\
    (forall (f : handler) (h : heap),
        MODEL_REGISTRY float_repr str_repr !! id = Some f -> f ctx p1 h = f ctx p2 h).
Proof.
  intros fr sr id ctx p1 p2 w.
  assert (forall (f : handler) (h : heap),
             MODEL_REGISTRY fr sr !! id = Some f -> f ctx p1 h = f ctx p2 h) as Hsame.
  { intros f h Hf. by apply MODEL_REGISTRY_lookup in Hf as [[_ ->] | [_ ->]]. }
  split; [|exact Hsame].
  unfold invoke_model. cbn [model_id context parameters].
  destruct (MODEL_REGISTRY fr sr !! id) as [f|] eqn:Hf; [|reflexivity].
  unfold try_except_Exception, bind, call, on_heap. cbn [w_heap w_calls].
  by rewrite (Hsame f (w_heap w)).
Qed.

Lemma C8_parameters_do_not_matter_witness :
  invoke_model (MODEL_REGISTRY sample_float_repr sample_str_repr)
    (mkMCPRequest "greeting-model" 0%nat None) (World sample_heap [])
  = invoke_model (MODEL_REGISTRY sample_float_repr sample_str_repr)
      (mkMCPRequest "greeting-model" 0%nat (Some 1%nat)) (World sample_heap []) /\
  greeting_model_handler sample_float_repr sample_str_repr 0%nat None sample_heap
  = greeting_model_handler sample_float_repr sample_str_repr 0%nat (Some 1%nat) sample_heap.
Proof.
  destruct (C8_parameters_do_not_matter sample_float_repr sample_str_repr
              "greeting-model" 0%nat None (Some 1%nat) (World sample_heap []))
    as [Hinvoke Hhandler].
  split; [exact Hinvoke|].
  apply Hhandler. vm_compute. reflexivity.
Defined.



(** C10. For every context in which the key [name] is present, bound to
    any value [v], the greeting handler returns
    [{"greeting": "Hello, " + str(v) + "!"}]: [str(v)] is defined on every
    value of a closed heap, a str is inserted as it is and any other value
    through its [repr]. The default [World] plays no part once the key is
    there: with [None] as the value the greeting is [Hello, None!]. *)
Theorem C10_greeting_present_name :
  forall (float_repr : Z -> string) (str_repr : string -> string)
         (ctx : loc) (p : option loc) (h : heap)
         (items : list (string * value)) (v : value),
    heap_closed h ->
    h !! ctx = Some (ODict items) ->
    dict_lookup items "name" = Some v ->
    exists text : string,
      py_str float_repr str_repr h v = Some text /\
      greeting_model_handler float_repr str_repr ctx p h
      = Some (Ret (VRef (length h)),
              h ++ [ODict [("greeting", VStr ("Hello, " +:+ text +:+ "!"))]]) /\
      (v = VNone -> "Hello, " +:+ text +:+ "!" = "Hello, None!") /\
      (forall s : string, v = VStr s -> text = s) /\
      (forall b : bool, v = VBool b -> text = if b then "True" else "False") /\
      (forall z : Z, v = VInt z -> text = int_str z).
Proof.
  intros fr sr ctx p h items v Hclosed Hctx Hname.
  destruct (py_str_total fr sr h v) as [text Htext]; [done | |].
  { eapply dict_lookup_ok; [by eapply heap_closed_lookup | done]. }
  exists text. split; [done|]. split.
  - apply greeting_model_handler_run with (items := items); [done|].
    unfold dict_get. by rewrite Hname.
  - destruct (py_str_scalars fr sr h) as (HNone & HBool & HInt & _ & HStr).
    repeat split.
    + intros ->. rewrite HNone in Htext. by injection Htext as <-.
    + intros s ->. rewrite HStr in Htext. congruence.
    + intros b ->. rewrite HBool in Htext. by injection Htext as <-.
    + intros z ->. rewrite HInt in Htext. by injection Htext as <-.
Qed.

Lemma C10_greeting_present_name_witness :
  exists text : string,
    py_str sample_float_repr sample_str_repr [ODict [("name", VNone)]] VNone = Some text /\
    greeting_model_handler sample_float_repr sample_str_repr 0%nat None
      [ODict [("name", VNone)]]
    = Some (Ret (VRef 1%nat),
            [ODict [("name", VNone)]]
              ++ [ODict [("greeting", VStr ("Hello, " +:+ text +:+ "!"))]]) /\
    "Hello, " +:+ text +:+ "!" = "Hello, None!".
Proof.
  destruct (C10_greeting_present_name sample_float_repr sample_str_repr 0%nat None
              [ODict [("name", VNone)]] [("name", VNone)] VNone)
    as (text & Hstr & Hrun & Hnone & _).
  - reflexivity.
  - reflexivity.
  - reflexivity.
  - exists text. split; [exact Hstr|]. split; [exact Hrun|]. by apply Hnone.
Defined.

(** * Further properties of the code *)

(** ** The dispatcher, for any registry *)





(** The branches of [invoke_model] on a run that is given. *)
Ltac invoke_model_cases registry request w Hrun Hf Hh He :=
  let f := fresh "f" in
  let v := fresh "v" in
  let e := fresh "e" in
  let h' := fresh "h'" in
  destruct (registry !! model_id request) as [f|] eqn:Hf;
  [ destruct (f (context request) (parameters request) (w_heap w))
      as [[[v|e] h']|] eqn:Hh;
    [ rewrite (invoke_model_returns _ _ _ _ _ _ Hf Hh) in Hrun
    | destruct (exn_is_Exception e) eqn:He;
      [ rewrite (invoke_model_catches _ _ _ _ _ _ Hf Hh He) in Hrun
      | rewrite (invoke_model_passes _ _ _ _ _ _ Hf Hh He) in Hrun ]
    | exfalso; unfold invoke_model in Hrun; rewrite Hf in Hrun;
      unfold try_except_Exception, bind, call, on_heap in Hrun;
      cbn [w_heap w_calls] in Hrun; by rewrite Hh in Hrun ]
  | rewrite (invoke_model_miss _ _ _ Hf) in Hrun ].

(** X3. The status of an [HTTPException] that [invoke_model] raises and the
    code written in its detail are the same number, 404 or 500: the detail
    is a dict [{"model_id": id, "error": error}] whose error is a dict
    [{"code": status, "message": text}], allocated one after the other. *)
Theorem X3_status_is_the_code_of_the_detail :
  forall (registry : gmap string handler) (request : MCPRequest) (w w' : world)
         (code : Z) (detail : value),
    invoke_model registry request w = Some (Raise (HTTPException code detail), w') ->
    (code = 404 \/ code = 500) /\
    exists (dl el : loc) (message : string),
      detail = VRef dl /\
      w_heap w' !! dl = Some (detail_dict (model_id request) el) /\
      w_heap w' !! el = Some (error_dict code message) /\
      dl = S el.
Proof.
  intros registry request w w' code detail Hrun.
  invoke_model_cases registry request w Hrun Hf Hh He.
  - discriminate.
  - injection Hrun as <- <- <-. split; [by right|].
    exists (S (length h')), (length h'), (exn_str e). cbn [w_heap].
    split; [done|]. split; [|split].
    + rewrite lookup_app_r by lia.
      by replace (S (length h') - length h')%nat with 1%nat by lia.
    + rewrite lookup_app_r by lia. by rewrite Nat.sub_diag.
    + done.
  - discriminate.
  - injection Hrun as <- <- <-. split; [by left|].
    exists (S (length (w_heap w))), (length (w_heap w)),
      ("Model '" +:+ model_id request +:+ "' not found."). cbn [w_heap].
    split; [done|]. split; [|split].
    + rewrite lookup_app_r by lia.
      by replace (S (length (w_heap w)) - length (w_heap w))%nat with 1%nat by lia.
    + rewrite lookup_app_r by lia. by rewrite Nat.sub_diag.
    + done.
Qed.

Lemma X3_status_is_the_code_of_the_detail_witness :
  (500 = 404 \/ 500 = 500) /\
  exists (dl el : loc) (message : string),
    VRef 2%nat = VRef dl /\
    [ODict []; error_dict 500 "boom"; detail_dict "failing-model" 1%nat] !! dl
    = Some (detail_dict "failing-model" el) /\
    [ODict []; error_dict 500 "boom"; detail_dict "failing-model" 1%nat] !! el
    = Some (error_dict 500 message) /\
    dl = S el.
Proof.
  apply (X3_status_is_the_code_of_the_detail {[ "failing-model" := failing_handler ]}
           (mkMCPRequest "failing-model" 0%nat None) (World [ODict []] [])
           (World [ODict []; error_dict 500 "boom"; detail_dict "failing-model" 1%nat]
              ["failing-model"])
           500 (VRef 2%nat)).
  vm_compute. reflexivity.
Defined.


(** ** The shipped endpoint keeps the heap closed *)

Lemma value_ok_fresh (h : heap) (o : object) : value_ok (length (h ++ [o])) (VRef (length h)) = true.
Proof. simpl. apply Nat.ltb_lt. rewrite length_app. simpl. lia. Qed.

Lemma handler_run_closed (float_repr : Z -> string) (str_repr : string -> string)
    (id : string) (f : handler) (c : loc) (p : option loc) (h h' : heap)
    (r : result pyexn value) :
  MODEL_REGISTRY float_repr str_repr !! id = Some f ->
  f c p h = Some (r, h') ->
  heap_closed h ->
  (c < length h)%nat ->
  heap_closed h' /\ (forall v, r = Ret v -> value_ok (length h') v = true).
Proof.
  intros Hf Hrun Hclosed Hc.
  apply MODEL_REGISTRY_lookup in Hf as [[_ ->] | [_ ->]].
  - rewrite echo_model_handler_run in Hrun. injection Hrun as <- <-. split.
    + apply heap_closed_alloc; [done|]. simpl. rewrite andb_true_r. by apply Nat.ltb_lt.
    + intros v [= <-]. apply value_ok_fresh.
  - unfold greeting_model_handler, bind, get_method, format_value in Hrun.
    destruct (h !! c) as [[items|elems]|]; [| |done].
    + destruct (py_str _ _ h _); [|done]. injection Hrun as <- <-. split.
      * by apply heap_closed_alloc.
      * intros v [= <-]. apply value_ok_fresh.
    + injection Hrun as <- <-. split; [done | by intros v [=]].
Qed.

Lemma heap_closed_error (h : heap) (id message : string) (code : Z) :
  heap_closed h ->
  heap_closed (h ++ [error_dict code message; detail_dict id (length h)]).
Proof.
  intros Hclosed.
  change (h ++ [error_dict code message; detail_dict id (length h)])
    with (h ++ [error_dict code message] ++ [detail_dict id (length h)]).
  rewrite app_assoc. apply heap_closed_alloc; [by apply heap_closed_alloc|].
  simpl. rewrite andb_true_r. apply Nat.ltb_lt. rewrite length_app. simpl. lia.
Qed.

(** X4. With the shipped registry a call of [invoke_model] only adds to
    the heap, whatever its outcome: every object that existed is as it was
    and at most two objects are new. On a closed heap, with a context that
    points into it, the heap it leaves is closed again, so the next request
    finds a heap it can run on. *)
Theorem X4_invoke_model_keeps_the_heap :
  forall (float_repr : Z -> string) (str_repr : string -> string)
         (request : MCPRequest) (w w' : world) (r : result raised value),
    invoke_model (MODEL_REGISTRY float_repr str_repr) request w = Some (r, w') ->
    (exists new : heap, w_heap w' = w_heap w ++ new /\ (length new <= 2)%nat) /\
    (forall (l : loc) (o : object), w_heap w !! l = Some o -> w_heap w' !! l = Some o) /\
    (heap_closed (w_heap w) ->
     (context request < length (w_heap w))%nat ->
     heap_closed (w_heap w')).
Proof.
  intros fr sr request w w' r Hrun.
  assert ((exists new : heap, w_heap w' = w_heap w ++ new /\ (length new <= 2)%nat) /\
          (heap_closed (w_heap w) ->
           (context request < length (w_heap w))%nat ->
           heap_closed (w_heap w'))) as [(new & Hnew & Hlen) Hclosed].
  { invoke_model_cases (MODEL_REGISTRY fr sr) request w Hrun Hf Hh He;
      injection Hrun as <- <-; cbn [w_heap].
    - destruct (handler_run_inv fr sr _ _ _ _ _ _ _ Hf Hh) as [(o & _ & ->) | (e & [=] & _)].
      split.
      + eexists. rewrite <- app_assoc. split; [done | simpl; lia].
      + intros Hc Hctx.
        destruct (handler_run_closed fr sr _ _ _ _ _ _ _ Hf Hh Hc Hctx) as [Hc' Hv].
        apply heap_closed_alloc; [done|]. simpl. by rewrite (Hv v eq_refl).
    - destruct (handler_run_inv fr sr _ _ _ _ _ _ _ Hf Hh) as [(o & [=] & _) | (e' & _ & ->)].
      split.
      + eexists. split; [done | simpl; lia].
      + intros Hc _. by apply heap_closed_error.
    - destruct (handler_run_inv fr sr _ _ _ _ _ _ _ Hf Hh) as [(o & [=] & _) | (e' & _ & ->)].
      split.
      + exists []. split; [by rewrite app_nil_r | simpl; lia].
      + done.
    - split.
      + eexists. split; [done | simpl; lia].
      + intros Hc _. by apply heap_closed_error. }
  split; [by exists new|]. split; [|done].
  intros l o Hl. rewrite Hnew. by apply lookup_app_l_Some.
Qed.

Lemma X4_invoke_model_keeps_the_heap_witness :
  (exists new : heap,
      sample_heap ++ [ODict [("echo", VRef 0%nat)]; envelope_dict "echo-model" (VRef 2%nat)]
      = sample_heap ++ new /\ (length new <= 2)%nat) /\
  (sample_heap ++ [ODict [("echo", VRef 0%nat)]; envelope_dict "echo-model" (VRef 2%nat)])
    !! 0%nat = Some (ODict [("name", VStr "Jules")]) /\
  heap_closed
    (sample_heap ++ [ODict [("echo", VRef 0%nat)]; envelope_dict "echo-model" (VRef 2%nat)]).
Proof.
  destruct (X4_invoke_model_keeps_the_heap sample_float_repr sample_str_repr
              (mkMCPRequest "echo-model" 0%nat (Some 1%nat)) (World sample_heap [])
              (World (sample_heap ++ [ODict [("echo", VRef 0%nat)];
                                      envelope_dict "echo-model" (VRef 2%nat)])
                 ["echo-model"])
              (Ret (VRef 3%nat)))
    as (Hnew & Hframe & Hclosed).
  - vm_compute. reflexivity.
  - split; [exact Hnew|]. split.
    + apply Hframe. reflexivity.
    + apply Hclosed; [reflexivity | simpl; lia].
Defined.

(** ** Validation and the endpoint as a whole *)

(** X5. A body in which [model_id] is missing or is no str, or in which
    [context] is missing or is no object, is refused with the validation
    error (HTTP 422) whatever the registry holds; nothing is allocated and no
    handler is called. *)
Theorem X5_body_without_required_field_is_refused :
  forall (registry : gmap string handler) (members : list (string * json)) (w : world),
    (forall s : string, json_member "model_id" members <> Some (JStr s)) \/
    (forall c : list (string * json), json_member "context" members <> Some (JDict c)) ->
    post_invoke registry (JDict members) w = Some (Raise RequestValidationError, w).
Proof.
  intros registry members w Hbad.
  assert (forall h : heap,
             MCPRequest_validate (JDict members) h = Some (Raise RequestValidationError, h))
    as Hval.
  { intros h. unfold MCPRequest_validate.
    destruct (json_member "model_id" members) as [[| | | |s| |]|] eqn:Hm; try reflexivity.
    destruct (json_member "context" members) as [[| | | | | |c]|] eqn:Hc; try reflexivity.
    destruct Hbad as [Hbad | Hbad]; [by destruct (Hbad s) | by destruct (Hbad c)]. }
  unfold post_invoke, bind, on_heap. rewrite Hval. by destruct w.
Qed.

Lemma X5_body_without_required_field_is_refused_witness :
  post_invoke (MODEL_REGISTRY sample_float_repr sample_str_repr)
    (JDict [("model_id", JInt 7); ("context", JDict [])]) (World sample_heap [])
  = Some (Raise RequestValidationError, World sample_heap []).
Proof.
  apply (X5_body_without_required_field_is_refused
           (MODEL_REGISTRY sample_float_repr sample_str_repr)
           [("model_id", JInt 7); ("context", JDict [])] (World sample_heap [])).
  left. intros s. vm_compute. discriminate.
Defined.

Lemma MCPRequest_validate_total (body : json) (h : heap) :
  (exists (request : MCPRequest) (items : list (string * value)) (ext : heap),
      MCPRequest_validate body h = Some (Ret request, h ++ ext) /\
      (h ++ ext) !! context request = Some (ODict items) /\
      (heap_closed h -> heap_closed (h ++ ext))) \/
  MCPRequest_validate body h = Some (Raise RequestValidationError, h).
Proof.
  destruct body as [| | | | | |members]; try by right.
  destruct (json_member "model_id" members) as [[| | | |s| |]|] eqn:Hm;
    try (right; unfold MCPRequest_validate; by rewrite Hm).
  destruct (json_member "context" members) as [[| | | | | |c]|] eqn:Hc;
    try (right; unfold MCPRequest_validate; by rewrite Hm, Hc).
  destruct (json_member "parameters" members) as [[| | | | | |p]|] eqn:Hp;
    try (right; unfold MCPRequest_validate; by rewrite Hm, Hc, Hp).
  - destruct (MCPRequest_validate_accepts members c s h Hm Hc) as (rq & items & ext & H1 & _ & H2 & H3);
      [by auto | left; by exists rq, items, ext].
  - destruct (MCPRequest_validate_accepts members c s h Hm Hc) as (rq & items & ext & H1 & _ & H2 & H3);
      [by eauto | left; by exists rq, items, ext].
  - destruct (MCPRequest_validate_accepts members c s h Hm Hc) as (rq & items & ext & H1 & _ & H2 & H3);
      [by auto | left; by exists rq, items, ext].
Qed.

Lemma shipped_handler_returns (float_repr : Z -> string) (str_repr : string -> string)
    (id : string) (f : handler) (c : loc) (p : option loc) (h : heap)
    (items : list (string * value)) :
  MODEL_REGISTRY float_repr str_repr !! id = Some f ->
  heap_closed h ->
  h !! c = Some (ODict items) ->
  exists (o : object),
    f c p h = Some (Ret (VRef (length h)), h ++ [o]) /\ object_ok (length h) o = true.
Proof.
  intros Hf Hclosed Hc.
  apply MODEL_REGISTRY_lookup in Hf as [[_ ->] | [_ ->]].
  - eexists. split; [apply echo_model_handler_run|].
    simpl. rewrite andb_true_r. apply Nat.ltb_lt. by eapply lookup_lt_Some.
  - destruct (py_str_total float_repr str_repr h (dict_get items "name" (VStr "World")))
      as [text Htext]; [done | |].
    { apply dict_get_ok; [by eapply heap_closed_lookup | done]. }
    eexists. split; [by eapply greeting_model_handler_run | done].
Qed.



(** ** Decoding and encoding are inverse *)

Lemma distinct_NoDup (keys : list string) : distinct keys = true -> NoDup keys.
Proof.
  induction keys as [|k rest IH]; simpl; [constructor|].
  rewrite andb_true_iff, negb_true_iff. intros [Hk Hrest].
  constructor; [|by apply IH].
  intros Hin. apply list_elem_of_In in Hin.
  assert (existsb (String.eqb k) rest = true) as Hex; [|congruence].
  apply existsb_exists. exists k. split; [done | apply String.eqb_refl].
Qed.

Lemma dict_set_fresh (items : list (string * value)) (key : string) (v : value) :
  key ∉ map fst items -> dict_set items key v = items ++ [(key, v)].
Proof.
  induction items as [|[k w] rest IH]; simpl; [done|].
  intros Hnot. rewrite not_elem_of_cons in Hnot. destruct Hnot as [Hne Hrest].
  destruct (String.eqb_spec k key) as [->|_]; [done|]. by rewrite IH.
Qed.

Lemma dict_of_pairs_distinct (pairs : list (string * value)) :
  NoDup (map fst pairs) -> dict_of_pairs pairs = pairs.
Proof.
  unfold dict_of_pairs.
  assert (forall acc, NoDup (map fst (acc ++ pairs)) ->
            fold_left (fun items kv => dict_set items kv.1 kv.2) pairs acc = acc ++ pairs)
    as Hgen.
  { induction pairs as [|[k v] rest IH]; intros acc Hnd; simpl.
    - by rewrite app_nil_r.
    - rewrite dict_set_fresh.
      + rewrite IH; [by rewrite <- app_assoc|]. by rewrite <- app_assoc.
      + rewrite map_app in Hnd. apply NoDup_app in Hnd as (_ & Hdisj & _).
        intros Hin. apply (Hdisj k Hin). simpl. by left. }
  intros Hnd. by apply (Hgen []).
Qed.

Lemma json_depth_elem (elems : list json) (x : json) :
  x ∈ elems ->
  (json_depth x <= fold_right (fun x d => Nat.max (json_depth x) d) 0 elems)%nat.
Proof.
  induction elems as [|y rest IH]; [by intros ?%elem_of_nil|].
  intros [->|Hin]%elem_of_cons; simpl; [lia|]. specialize (IH Hin). lia.
Qed.

Lemma json_depth_member (members : list (string * json)) (k : string) (x : json) :
  (k, x) ∈ members ->
  (json_depth x <= fold_right (fun '(_, x) d => Nat.max (json_depth x) d) 0 members)%nat.
Proof.
  induction members as [|[k' y] rest IH]; [by intros ?%elem_of_nil|].
  intros [[= -> ->]|Hin]%elem_of_cons; simpl; [lia|]. specialize (IH Hin). lia.
Qed.

Lemma decodes_weaken {E A} (ok : nat -> A -> Prop) (m : M heap E A) :
  decodes ok m -> decodes (fun _ _ => True) m.
Proof.
  intros Hdec h. destruct (Hdec h) as (a & ext & Hrun & Hc).
  exists a, ext. split; [done|]. intros Hclosed. split; [by apply Hc | done].
Qed.

(** What [for_each] returns, element by element: a property of one result
    that survives allocation holds for all of them on the final heap. *)
Lemma for_each_inv {E A B} (f : A -> M heap E B) (Q : A -> B -> heap -> Prop)
    (xs : list A) :
  Forall (fun x => decodes (fun _ _ => True) (f x) /\
                   forall h b h', f x h = Some (Ret b, h') ->
                                  forall ext, Q x b (h' ++ ext)) xs ->
  forall (h : heap) (ys : list B) (h' : heap),
    for_each f xs h = Some (Ret ys, h') ->
    forall ext : heap, Forall2 (fun x y => Q x y (h' ++ ext)) xs ys.
Proof.
  intros Hall. induction Hall as [|x xs [Hdec HQ] Hall IH]; intros h ys h' Hrun ext.
  - injection Hrun as <- <-. constructor.
  - cbn [for_each] in Hrun. unfold bind at 1 in Hrun.
    destruct (Hdec h) as (b & e1 & Hrun1 & _). rewrite Hrun1 in Hrun.
    unfold bind at 1 in Hrun.
    assert (decodes (fun _ ys => Forall (fun _ : B => True) ys) (for_each f xs)) as Hdec2.
    { apply (for_each_decodes (fun _ _ => True)); [auto|].
      eapply Forall_impl; [exact Hall|]. by intros y [Hy _]. }
    destruct (Hdec2 (h ++ e1)) as (ys' & e2 & Hrun2 & _).
    rewrite Hrun2 in Hrun. injection Hrun as <- <-.
    constructor.
    + rewrite <- app_assoc. by apply (HQ h).
    + by apply (IH (h ++ e1)).
Qed.

Lemma load_json_of {E} (j : json) :
  json_wf j = true ->
  forall (h : heap) (v : value) (h' : heap),
    @load E j h = Some (Ret v, h') ->
    forall (n : nat) (ext : heap),
      (json_depth j <= n)%nat -> json_of n (h' ++ ext) v = Some j.
Proof.
  induction j as [| b | z | bits | s | elems IH | members IH] using json_nested_ind;
    intros Hwf h v h' Hrun n ext Hn;
    try (injection Hrun as <- <-; by destruct n).
  - rewrite load_JList in Hrun. unfold bind in Hrun.
    destruct (for_each load elems h) as [[[vs|e] h1]|] eqn:Hfor; [|done..].
    injection Hrun as <- <-.
    change (json_wf (JList elems)) with (forallb json_wf elems) in Hwf.
    change (json_depth (JList elems))
      with (S (fold_right (fun x d => Nat.max (json_depth x) d) 0%nat elems)) in Hn.
    destruct n as [|n]; [lia|]. cbn [json_of].
    rewrite <- app_assoc, lookup_app_r by lia. rewrite Nat.sub_diag. cbn [lookup list_lookup app].
    erewrite mapM_Some_2; [reflexivity|].
    apply Forall2_flip. unfold flip.
    apply (for_each_inv (@load E) (fun x y H => json_of n H y = Some x) elems)
      with (h := h) (h' := h1) (ext := OList vs :: ext); [|done].
    rewrite forallb_forall in Hwf.
    rewrite Forall_forall in IH. apply Forall_forall. intros x Hx. split.
    + eapply decodes_weaken, load_decodes.
    + intros h0 b h0' Hr ext0. eapply IH; eauto.
      * by apply Hwf, list_elem_of_In.
      * pose proof (json_depth_elem elems x Hx). lia.
  - rewrite load_JDict in Hrun. unfold bind at 1 in Hrun.
    destruct (for_each _ members h) as [[[pairs|e] h1]|] eqn:Hfor; [|done..].
    injection Hrun as <- <-.
    change (json_wf (JDict members))
      with (distinct (map fst members) && forallb (fun '(_, x) => json_wf x) members) in Hwf.
    change (json_depth (JDict members))
      with (S (fold_right (fun '(_, x) d => Nat.max (json_depth x) d) 0%nat members)) in Hn.
    destruct n as [|n]; [lia|]. cbn [json_of].
    apply andb_true_iff in Hwf as [Hkeys Hwf].
    rewrite <- app_assoc, lookup_app_r by lia. rewrite Nat.sub_diag. cbn [lookup list_lookup app].
    assert (Forall2 (fun (m : string * json) (p : string * value) =>
                       m.1 = p.1 /\ json_of n (h1 ++ ODict (dict_of_pairs pairs) :: ext) p.2
                                    = Some m.2) members pairs) as Hpairs.
    { apply (for_each_inv (fun '(k, x) => let* v := @load E x in ret (k, v))
               (fun (m : string * json) (p : string * value) H =>
                  m.1 = p.1 /\ json_of n H p.2 = Some m.2) members)
        with (h := h) (h' := h1) (ext := ODict (dict_of_pairs pairs) :: ext); [|done].
      rewrite forallb_forall in Hwf.
      rewrite Forall_forall in IH. apply Forall_forall. intros [k x] Hx. split.
      - intros h0. destruct (@load_decodes E x h0) as (a & e0 & Hr & Hc).
        exists (k, a), e0. split; [unfold bind; by rewrite Hr|].
        intros Hcl. split; [by apply Hc | done].
      - intros h0 [k' b] h0' Hr ext0. unfold bind in Hr.
        destruct (load x h0) as [[[a|e] h2]|] eqn:Hload; [|done..].
        injection Hr as <- <- <-. split; [done|]. cbn [fst snd].
        eapply (IH (k, x) Hx); eauto.
        + by apply (Hwf (k, x)), list_elem_of_In.
        + pose proof (json_depth_member members k x Hx). cbn [snd]. lia. }
    assert (dict_of_pairs pairs = pairs) as Hdist.
    { apply dict_of_pairs_distinct.
      replace (map fst pairs) with (map fst members); [by apply distinct_NoDup|].
      clear -Hpairs. induction Hpairs as [|m p ms ps [Hk _] _ IHp]; [done|].
      simpl. by rewrite Hk, IHp. }
    rewrite Hdist in *.
    erewrite mapM_Some_2; [reflexivity|].
    apply Forall2_flip. eapply Forall2_impl; [exact Hpairs|].
    intros [k x] [k' v] [Hk Hv]. unfold flip. cbn [fst snd] in *. subst k'.
    by rewrite Hv.
Qed.

(** ** From the body to the answer *)

Lemma MODEL_REGISTRY_echo (float_repr : Z -> string) (str_repr : string -> string) :
  MODEL_REGISTRY float_repr str_repr !! "echo-model" = Some echo_model_handler.
Proof. unfold MODEL_REGISTRY. apply lookup_insert_eq. Qed.

Lemma MODEL_REGISTRY_greeting (float_repr : Z -> string) (str_repr : string -> string) :
  MODEL_REGISTRY float_repr str_repr !! "greeting-model"
  = Some (greeting_model_handler float_repr str_repr).
Proof.
  unfold MODEL_REGISTRY. rewrite lookup_insert_ne by done. apply lookup_singleton_eq.
Qed.

(** An accepted body: its context is decoded first, and the request refers
    to the dict that decoding returned. *)
Lemma MCPRequest_validate_loads (members c : list (string * json)) (id : string)
    (h : heap) :
  json_member "model_id" members = Some (JStr id) ->
  json_member "context" members = Some (JDict c) ->
  (json_member "parameters" members = None \/
   json_member "parameters" members = Some JNull \/
   exists p, json_member "parameters" members = Some (JDict p)) ->
  exists (cl : loc) (pp : option loc) (h1 ext : heap),
    @load raised (JDict c) h = Some (Ret (VRef cl), h1) /\
    MCPRequest_validate (JDict members) h = Some (Ret (mkMCPRequest id cl pp), h1 ++ ext).
Proof.
  intros Hid Hctx Hpar. unfold MCPRequest_validate. rewrite Hid, Hctx.
  destruct (@load_object raised c h) as (cl & items & ext & Hrun & _ & _).
  assert (bind (load (JDict c))
            (fun cv => match cv with
                       | VRef l => ret (mkMCPRequest id l None)
                       | _ => raise RequestValidationError
                       end) h
          = Some (Ret (mkMCPRequest id cl None), (h ++ ext) ++ [])) as Hnone.
  { unfold bind. rewrite Hrun. by rewrite app_nil_r. }
  destruct Hpar as [-> | [-> | [p ->]]].
  - by exists cl, None, (h ++ ext), [].
  - by exists cl, None, (h ++ ext), [].
  - destruct (@load_object raised p (h ++ ext)) as (pl & pitems & ext2 & Hrun2 & _ & _).
    exists cl, (Some pl), (h ++ ext), ext2. split; [done|].
    unfold bind at 1. rewrite Hrun. unfold bind at 1. by rewrite Hrun2.
Qed.



Lemma dict_lookup_dict_set (items : list (string * value)) (k key : string) (v : value) :
  dict_lookup (dict_set items k v) key
  = if String.eqb k key then Some v else dict_lookup items key.
Proof.
  induction items as [|[k0 w] rest IH]; simpl; [done|].
  destruct (String.eqb_spec k0 k) as [->|Hne]; simpl.
  - by destruct (String.eqb k key).
  - rewrite IH. destruct (String.eqb_spec k0 key) as [->|_]; [|done].
    destruct (String.eqb_spec k key) as [->|_]; [done | done].
Qed.

Lemma load_scalar {E} (x : json) (v0 b : value) (h h' : heap) :
  scalar_of x = Some v0 -> @load E x h = Some (Ret b, h') -> b = v0.
Proof. destruct x; simpl; try done; intros [= <-] [= <- _]; done. Qed.

(** What a decoded object holds under a key: nothing when the object has no
    such member, the scalar itself when the member it keeps is a scalar. *)
Lemma load_object_lookup {E} (c : list (string * json)) (h h1 : heap) (cl : loc)
    (key : string) :
  @load E (JDict c) h = Some (Ret (VRef cl), h1) ->
  exists items : list (string * value),
    h1 !! cl = Some (ODict items) /\
    (json_member key c = None -> dict_lookup items key = None) /\
    (forall (x : json) (v0 : value),
        json_member key c = Some x -> scalar_of x = Some v0 ->
        dict_lookup items key = Some v0).
Proof.
  intros Hrun. rewrite load_JDict in Hrun. unfold bind at 1 in Hrun.
  destruct (for_each _ c h) as [[[pairs|e] h0]|] eqn:Hfor; [|done..].
  injection Hrun as <- <-.
  exists (dict_of_pairs pairs). split.
  { rewrite lookup_app_r by lia. by rewrite Nat.sub_diag. }
  assert (Forall2 (fun (m : string * json) (p : string * value) =>
                     m.1 = p.1 /\ forall v0, scalar_of m.2 = Some v0 -> p.2 = v0) c pairs)
    as Hpairs.
  { apply (for_each_inv (fun '(k, x) => let* v := @load E x in ret (k, v))
             (fun (m : string * json) (p : string * value) (_ : heap) =>
                m.1 = p.1 /\ forall v0, scalar_of m.2 = Some v0 -> p.2 = v0) c)
      with (h := h) (h' := h0) (ext := []); [|done].
    apply Forall_forall. intros [k x] _. split.
    - intros h2. destruct (@load_decodes E x h2) as (a & e0 & Hr & Hc).
      exists (k, a), e0. split; [unfold bind; by rewrite Hr|].
      intros Hcl. split; [by apply Hc | done].
    - intros h2 [k' b] h2' Hr ext0. unfold bind in Hr.
      destruct (load x h2) as [[[a|e] h3]|] eqn:Hload; [|done..].
      injection Hr as <- <- <-. split; [done|]. cbn [fst snd].
      intros v0 Hv0. by eapply load_scalar. }
  unfold dict_of_pairs.
  assert (forall acc : list (string * value),
             (json_member key c = None ->
              dict_lookup (fold_left (fun items kv => dict_set items kv.1 kv.2) pairs acc) key
              = dict_lookup acc key) /\
             (forall x v0, json_member key c = Some x -> scalar_of x = Some v0 ->
              dict_lookup (fold_left (fun items kv => dict_set items kv.1 kv.2) pairs acc) key
              = Some v0)) as Hgen.
  { clear Hfor. induction Hpairs as [|[k x] [k' v] ms ps [Hk Hv] _ IH]; intros acc.
    - split; [done | by intros x v0 [=]].
    - cbn [fst snd] in Hk, Hv. subst k'. cbn [fold_left json_member fst snd].
      destruct (IH (dict_set acc k v)) as [IHnone IHsome].
      destruct (json_member key ms) as [y|] eqn:Hy.
      + split; [done|]. intros x0 v0 [= <-] Hs. by apply (IHsome y).
      + destruct (String.eqb_spec k key) as [->|Hne].
        * split; [done|]. intros x0 v0 [= <-] Hs.
          rewrite IHnone by done. rewrite dict_lookup_dict_set, String.eqb_refl.
          by rewrite (Hv v0 Hs).
        * split; [|done]. intros _. rewrite IHnone by done.
          rewrite dict_lookup_dict_set. by destruct (String.eqb_spec k key). }
  destruct (Hgen []) as [Hnone Hsome]. split; [|done].
  intros Habsent. by rewrite Hnone.
Qed.

Lemma py_str_of_scalar (float_repr : Z -> string) (str_repr : string -> string)
    (x : json) (v0 : value) (h : heap) :
  scalar_of x = Some v0 ->
  py_str float_repr str_repr h v0 = py_str float_repr str_repr [] v0.
Proof.
  destruct (py_str_scalars float_repr str_repr h) as (H1 & H2 & H3 & H4 & H5).
  destruct (py_str_scalars float_repr str_repr []) as (G1 & G2 & G3 & G4 & G5).
  destruct x; simpl; try done; intros [= <-];
    rewrite ?H1, ?H2, ?H3, ?H4, ?H5, ?G1, ?G2, ?G3, ?G4, ?G5; done.
Qed.

(** X8. The greeting model greets by the name sent. For every body that
    names [greeting-model] with an object as context, whatever its
    parameters: when the context has no member [name] the endpoint answers
    200 with [{"model_id": "greeting-model", "result": {"greeting":
    "Hello, World!"}}]; when the member it keeps for [name] is a scalar, the
    greeting is [Hello, ] followed by [str] of that scalar and [!] (the str
    itself, [None] for null, [True] or [False], the digits of an int). *)
Theorem X8_greeting_answers_by_the_name_sent :
  forall (float_repr : Z -> string) (str_repr : string -> string)
         (members c : list (string * json)) (w : world) (n : nat) (text : string),
    json_member "model_id" members = Some (JStr "greeting-model") ->
    json_member "context" members = Some (JDict c) ->
    (json_member "parameters" members = None \/
     json_member "parameters" members = Some JNull \/
     exists p, json_member "parameters" members = Some (JDict p)) ->
    (json_member "name" c = None /\ text = "World") \/
    (exists (x : json) (v0 : value),
        json_member "name" c = Some x /\ scalar_of x = Some v0 /\
        py_str float_repr str_repr [] v0 = Some text) ->
    (2 <= n)%nat ->
    answer_status (post_invoke (MODEL_REGISTRY float_repr str_repr) (JDict members) w)
    = Some 200 /\
    answer_json n (post_invoke (MODEL_REGISTRY float_repr str_repr) (JDict members) w)
    = Some (JDict [("model_id", JStr "greeting-model");
                   ("result", JDict [("greeting", JStr ("Hello, " +:+ text +:+ "!"))])]).
Proof.
  intros fr sr members c w n text Hid Hctx Hpar Hname Hn.
  destruct (MCPRequest_validate_loads members c "greeting-model" (w_heap w) Hid Hctx Hpar)
    as (cl & pp & h1 & ext & Hload & Hval).
  destruct (load_object_lookup c (w_heap w) h1 cl "name" Hload)
    as (items & Hitems & Hnone & Hsome).
  assert (py_str fr sr (h1 ++ ext) (dict_get items "name" (VStr "World")) = Some text)
    as Htext.
  { unfold dict_get. destruct Hname as [[Habsent ->] | (x & v0 & Hx & Hs & Hv0)].
    - by rewrite (Hnone Habsent).
    - rewrite (Hsome x v0 Hx Hs). by rewrite (py_str_of_scalar fr sr x v0 _ Hs). }
  rewrite (post_invoke_accepted _ _ _ _ _ Hval).
  rewrite (invoke_model_returns (MODEL_REGISTRY fr sr)
             (mkMCPRequest "greeting-model" cl pp) (World (h1 ++ ext) (w_calls w))
             (greeting_model_handler fr sr) (VRef (length (h1 ++ ext)))
             ((h1 ++ ext) ++ [ODict [("greeting", VStr ("Hello, " +:+ text +:+ "!"))]])
             (MODEL_REGISTRY_greeting fr sr)
             (greeting_model_handler_run fr sr cl pp (h1 ++ ext) items text
                (lookup_app_l_Some _ _ _ _ Hitems) Htext)).
  cbn [answer_status answer_json status_code_of w_heap model_id context].
  split; [done|].
  destruct n as [|[|n]]; [lia | lia |].
  apply json_of_dict2 with (v1 := VStr "greeting-model") (v2 := VRef (length (h1 ++ ext))).
  - rewrite lookup_app_r by lia. by rewrite Nat.sub_diag.
  - apply json_of_str.
  - apply json_of_dict1 with (v := VStr ("Hello, " +:+ text +:+ "!")).
    + apply lookup_app_l_Some. rewrite lookup_app_r by lia. by rewrite Nat.sub_diag.
    + apply json_of_str.
Qed.

Lemma X8_greeting_answers_by_the_name_sent_witness :
  answer_status
    (post_invoke (MODEL_REGISTRY sample_float_repr sample_str_repr)
       (JDict [("model_id", JStr "greeting-model");
               ("context", JDict [("name", JStr "Ada"); ("name", JInt (-7))])])
       (World sample_heap []))
  = Some 200 /\
  answer_json 2
    (post_invoke (MODEL_REGISTRY sample_float_repr sample_str_repr)
       (JDict [("model_id", JStr "greeting-model");
               ("context", JDict [("name", JStr "Ada"); ("name", JInt (-7))])])
       (World sample_heap []))
  = Some (JDict [("model_id", JStr "greeting-model");
                 ("result", JDict [("greeting", JStr ("Hello, " +:+ "-7" +:+ "!"))])]).
Proof.
  apply (X8_greeting_answers_by_the_name_sent sample_float_repr sample_str_repr
           [("model_id", JStr "greeting-model");
            ("context", JDict [("name", JStr "Ada"); ("name", JInt (-7))])]
           [("name", JStr "Ada"); ("name", JInt (-7))]
           (World sample_heap []) 2%nat "-7").
  - reflexivity.
  - reflexivity.
  - left. reflexivity.
  - right. exists (JInt (-7)), (VInt (-7)). repeat split; reflexivity.
  - lia.
Defined.

(** ** The liveness endpoint *)

(** X9. [GET /] answers 200 with [{"message": "MCP Server is running"}] on
    every heap and after any requests: it consults no registry, calls no
    handler, changes no object that existed, and leaves a closed heap
    closed, so it can be called between any two requests. *)
Theorem X9_read_root_always_answers :
  forall (w : world) (n : nat),
    (1 <= n)%nat ->
    answer_status (read_root w) = Some 200 /\
    answer_json n (read_root w) = Some (JDict [("message", JStr "MCP Server is running")]) /\
    exists w' : world,
      read_root w = Some (Ret (VRef (length (w_heap w))), w') /\
      w_calls w' = w_calls w /\
      (forall (l : loc) (o : object), w_heap w !! l = Some o -> w_heap w' !! l = Some o) /\
      (heap_closed (w_heap w) -> heap_closed (w_heap w')).
Proof.
  intros w n Hn. unfold read_root, on_heap, new_dict.
  cbn [answer_status answer_json status_code_of w_heap w_calls].
  split; [done|]. split.
  - destruct n as [|n]; [lia|].
    apply json_of_dict1 with (v := VStr "MCP Server is running").
    + rewrite lookup_app_r by lia. by rewrite Nat.sub_diag.
    + apply json_of_str.
  - eexists. split; [reflexivity|]. cbn [w_heap w_calls]. split; [done|]. split.
    + intros l o Hl. by apply lookup_app_l_Some.
    + intros Hclosed. by apply heap_closed_alloc.
Qed.

Lemma X9_read_root_always_answers_witness :
  answer_status (read_root (World sample_heap ["echo-model"])) = Some 200 /\
  answer_json 1 (read_root (World sample_heap ["echo-model"]))
  = Some (JDict [("message", JStr "MCP Server is running")]) /\
  exists w' : world,
    read_root (World sample_heap ["echo-model"])
    = Some (Ret (VRef (length sample_heap)), w') /\
    w_calls w' = ["echo-model"] /\
    (forall (l : loc) (o : object), sample_heap !! l = Some o -> w_heap w' !! l = Some o) /\
    (heap_closed sample_heap -> heap_closed (w_heap w')).
Proof.
  apply (X9_read_root_always_answers (World sample_heap ["echo-model"]) 1%nat). lia.
Defined.

(** ** The heap model against the endpoint on trees *)

(** Where each element of [for_each] ran: on the heap its predecessors
    left, leaving a heap that the final one extends. *)
Lemma for_each_trace {E A B} (f : A -> M heap E B) (xs : list A) :
  Forall (fun x => decodes (fun _ _ => True) (f x)) xs ->
  forall (h : heap) (ys : list B) (h' : heap),
    for_each f xs h = Some (Ret ys, h') ->
    Forall2 (fun x y => exists pre mid post : heap,
                 h' = (h ++ pre) ++ mid ++ post /\
                 f x (h ++ pre) = Some (Ret y, (h ++ pre) ++ mid)) xs ys.
Proof.
  intros Hall. induction Hall as [|x xs Hdec Hall IH]; intros h ys h' Hrun.
  - injection Hrun as <- <-. constructor.
  - cbn [for_each] in Hrun. unfold bind at 1 in Hrun.
    destruct (Hdec h) as (b & e1 & Hrun1 & _). rewrite Hrun1 in Hrun.
    unfold bind at 1 in Hrun.
    assert (decodes (fun _ ys => Forall (fun _ : B => True) ys) (for_each f xs)) as Hdec2.
    { by apply (for_each_decodes (fun _ _ => True)); [auto|]. }
    destruct (Hdec2 (h ++ e1)) as (ys' & e2 & Hrun2 & _).
    rewrite Hrun2 in Hrun. injection Hrun as <- <-.
    constructor.
    + exists [], e1, e2. rewrite !app_nil_r. split; [by rewrite app_assoc | done].
    + eapply Forall2_impl; [exact (IH _ _ _ Hrun2)|].
      intros x' y' (pre & mid & post & Hh & Hf).
      exists (e1 ++ pre), mid, post. rewrite !(app_assoc h e1 pre). by split.
Qed.

Lemma Forall2_elem_l {A B} (P : A -> B -> Prop) (l : list A) (k : list B) :
  Forall2 P l k -> Forall2 (fun x y => x ∈ l /\ P x y) l k.
Proof.
  assert (forall l0 : list A, Forall2 P l k -> (forall x, x ∈ l -> x ∈ l0) ->
             Forall2 (fun x y => x ∈ l0 /\ P x y) l k) as Hgen.
  { intros l0 HP. induction HP as [|x y l k Hxy _ IH]; intros Hsub; constructor.
    - split; [apply Hsub; by left | done].
    - apply IH. intros z Hz. apply Hsub. by right. }
  intros HP. by apply Hgen.
Qed.

Lemma for_each_extends {E A B} (f : A -> M heap E B) (xs : list A) (h h' : heap)
    (ys : list B) :
  Forall (fun x => decodes (fun _ _ => True) (f x)) xs ->
  for_each f xs h = Some (Ret ys, h') ->
  exists ext : heap, h' = h ++ ext.
Proof.
  intros Hall Hrun.
  assert (decodes (fun _ ys => Forall (fun _ : B => True) ys) (for_each f xs)) as Hdec.
  { by apply (for_each_decodes (fun _ _ => True)); [auto|]. }
  destruct (Hdec h) as (ys' & e & Hrun' & _). rewrite Hrun' in Hrun.
  injection Hrun as <- <-. by exists e.
Qed.

Lemma load_member_decodes {E} (members : list (string * json)) :
  Forall (fun m => decodes (fun _ _ => True)
                     ((fun '(k, x) => let* v := @load E x in ret (k, v)) m)) members.
Proof.
  apply Forall_forall. intros [k x] _ h0.
  destruct (@load_decodes E x h0) as (a & e0 & Hr & Hc).
  exists (k, a), e0. split; [unfold bind; by rewrite Hr|].
  intros Hcl. split; [by apply Hc | done].
Qed.

Section ReferenceFacts.
Variable float_repr : Z -> string.
Variable str_repr : string -> string.

Local Abbreviation repr_fuel := (py_repr_fuel float_repr str_repr).
Local Abbreviation tree_repr := (json_repr float_repr str_repr).

(** [repr] of a decoded value is [repr] of the tree it was decoded from:
    the objects of a decoded value are new and nest without a cycle. *)
Lemma load_repr {E} (j : json) :
  json_wf j = true ->
  forall (h : heap) (v : value) (h' : heap),
    @load E j h = Some (Ret v, h') ->
    forall (n : nat) (ext : heap) (visiting : list loc),
      (json_depth j <= n)%nat ->
      Forall (fun a => (a < length h)%nat \/ (length h' <= a)%nat) visiting ->
      repr_fuel n (h' ++ ext) visiting v = Some (tree_repr j).
Proof.
  induction j as [| b | z | bits | s | elems IH | members IH] using json_nested_ind;
    intros Hwf h v h' Hrun n ext visiting Hn Hvis;
    try (injection Hrun as <- <-; by destruct n).
  - rewrite load_JList in Hrun. unfold bind in Hrun.
    destruct (for_each load elems h) as [[[vs|e] h1]|] eqn:Hfor; [|done..].
    injection Hrun as <- <-.
    assert (Forall (fun x => decodes (fun _ _ => True) (@load E x)) elems) as Hdec.
    { apply Forall_forall. intros x _. eapply decodes_weaken, load_decodes. }
    destruct (for_each_extends _ _ _ _ _ Hdec Hfor) as [e0 He0].
    change (json_wf (JList elems)) with (forallb json_wf elems) in Hwf.
    change (json_depth (JList elems))
      with (S (fold_right (fun x d => Nat.max (json_depth x) d) 0%nat elems)) in Hn.
    destruct n as [|n]; [lia|]. cbn [py_repr_fuel].
    rewrite <- app_assoc, lookup_app_r by lia. rewrite Nat.sub_diag.
    cbn [lookup list_lookup app].
    rewrite bool_decide_eq_false_2.
    2:{ intros Hin. rewrite Forall_forall in Hvis. apply Hvis in Hin.
        rewrite length_app in Hin. subst h1. rewrite length_app in Hin. simpl in Hin. lia. }
    erewrite (mapM_Some_2 _ vs (map tree_repr elems)); [reflexivity|].
    apply Forall2_fmap_r, Forall2_flip.
    eapply Forall2_impl; [exact (Forall2_elem_l _ _ _ (for_each_trace _ _ Hdec _ _ _ Hfor))|].
    intros x y (Hx & pre & mid & post & Hh1 & Hload). unfold flip.
    rewrite forallb_forall in Hwf. rewrite Forall_forall in IH.
    replace (h1 ++ OList vs :: ext)
      with (((h ++ pre) ++ mid) ++ (post ++ OList vs :: ext))
      by (rewrite Hh1; by rewrite <- !app_assoc).
    eapply (IH x Hx); [by apply Hwf, list_elem_of_In | exact Hload | |].
    + pose proof (json_depth_elem elems x Hx). lia.
    + constructor.
      * right. rewrite Hh1. rewrite !length_app. lia.
      * eapply Forall_impl; [exact Hvis|]. intros a [Ha | Ha].
        -- left. rewrite length_app. lia.
        -- right. rewrite Hh1 in Ha. rewrite !length_app in *. simpl in Ha. lia.
  - rewrite load_JDict in Hrun. unfold bind at 1 in Hrun.
    destruct (for_each _ members h) as [[[pairs|e] h1]|] eqn:Hfor; [|done..].
    injection Hrun as <- <-.
    pose proof (@load_member_decodes E members) as Hdec.
    destruct (for_each_extends _ _ _ _ _ Hdec Hfor) as [e0 He0].
    change (json_wf (JDict members))
      with (distinct (map fst members) && forallb (fun '(_, x) => json_wf x) members) in Hwf.
    change (json_depth (JDict members))
      with (S (fold_right (fun '(_, x) d => Nat.max (json_depth x) d) 0%nat members)) in Hn.
    apply andb_true_iff in Hwf as [Hkeys Hwf].
    pose proof (Forall2_elem_l _ _ _ (for_each_trace _ _ Hdec _ _ _ Hfor)) as Htrace.
    assert (dict_of_pairs pairs = pairs) as ->.
    { apply dict_of_pairs_distinct.
      replace (map fst pairs) with (map fst members); [by apply distinct_NoDup|].
      clear -Htrace. induction Htrace as [|[k x] [k' v] ms ps Hm _ IHp]; [done|].
      destruct Hm as (_ & pre & mid & post & _ & Hf). unfold bind in Hf.
      destruct (load x (h ++ pre)) as [[[a|e] h2]|]; [|done..].
      injection Hf as <- _ _. simpl. by rewrite IHp. }
    destruct n as [|n]; [lia|]. cbn [py_repr_fuel].
    rewrite <- app_assoc, lookup_app_r by lia. rewrite Nat.sub_diag.
    cbn [lookup list_lookup app].
    rewrite bool_decide_eq_false_2.
    2:{ intros Hin. rewrite Forall_forall in Hvis. apply Hvis in Hin.
        rewrite length_app in Hin. subst h1. rewrite length_app in Hin. simpl in Hin. lia. }
    erewrite (mapM_Some_2 _ pairs
                (map (fun '(k, x) => str_repr k +:+ ": " +:+ tree_repr x) members));
      [reflexivity|].
    apply Forall2_fmap_r, Forall2_flip.
    eapply Forall2_impl; [exact Htrace|].
    intros [k x] [k' y] (Hx & pre & mid & post & Hh1 & Hf). unfold flip, repr_item.
    unfold bind in Hf.
    destruct (load x (h ++ pre)) as [[[a|e] h2]|] eqn:Hload; [|done..].
    injection Hf as <- <- ->. cbn [fst snd].
    rewrite forallb_forall in Hwf. rewrite Forall_forall in IH.
    replace (h1 ++ ODict pairs :: ext)
      with (((h ++ pre) ++ mid) ++ (post ++ ODict pairs :: ext))
      by (rewrite Hh1; by rewrite <- !app_assoc).
    erewrite (IH (k, x) Hx); [reflexivity | | exact Hload | |].
    + by apply (Hwf (k, x)), list_elem_of_In.
    + pose proof (json_depth_member members k x Hx). cbn [snd]. lia.
    + constructor.
      * right. rewrite Hh1. rewrite !length_app. lia.
      * eapply Forall_impl; [exact Hvis|]. intros a0 [Ha | Ha].
        -- left. rewrite length_app. lia.
        -- right. rewrite Hh1 in Ha. rewrite !length_app in *. simpl in Ha. lia.
Qed.
End ReferenceFacts.

Lemma Forall2_exists_l {A B} (P : A -> B -> Prop) (l : list A) (k : list B) :
  Forall2 P l k -> Forall (fun x => exists y, P x y) l.
Proof. induction 1; constructor; eauto. Qed.

Lemma fold_max_bound {A} (f : A -> nat) (xs : list A) (N : nat) :
  Forall (fun x => f x <= N)%nat xs ->
  (fold_right (fun x d => Nat.max (f x) d) 0 xs <= N)%nat.
Proof. induction 1; simpl; lia. Qed.

(** Decoding allocates an object for each level of nesting. *)
Lemma load_depth {E} (j : json) :
  forall (h : heap) (v : value) (ext : heap),
    @load E j h = Some (Ret v, h ++ ext) -> (json_depth j <= length ext)%nat.
Proof.
  induction j as [| b | z | bits | s | elems IH | members IH] using json_nested_ind;
    intros h v ext Hrun; try (simpl; lia).
  - rewrite load_JList in Hrun. unfold bind in Hrun.
    destruct (for_each load elems h) as [[[vs|e] h1]|] eqn:Hfor; [|done..].
    assert (Forall (fun x => decodes (fun _ _ => True) (@load E x)) elems) as Hdec.
    { apply Forall_forall. intros x _. eapply decodes_weaken, load_decodes. }
    destruct (for_each_extends _ _ _ _ _ Hdec Hfor) as [e0 ->].
    injection Hrun as _ Hext. rewrite <- app_assoc in Hext. apply app_inv_head in Hext.
    subst ext. rewrite length_app. cbn [length].
    change (json_depth (JList elems))
      with (S (fold_right (fun x d => Nat.max (json_depth x) d) 0%nat elems)).
    assert (Forall (fun x => json_depth x <= length e0)%nat elems) as Hall.
    { pose proof (Forall2_exists_l _ _ _
                    (Forall2_elem_l _ _ _ (for_each_trace _ _ Hdec _ _ _ Hfor))) as Htrace.
      rewrite Forall_forall in IH.
      eapply Forall_impl; [exact Htrace|].
      intros x (y & Hx & pre & mid & post & Hh & Hl).
      pose proof (IH x Hx (h ++ pre) y mid Hl) as Hd.
      rewrite <- !app_assoc in Hh. apply app_inv_head in Hh. subst e0.
      rewrite !length_app. lia. }
    pose proof (fold_max_bound json_depth elems (length e0) Hall). lia.
  - rewrite load_JDict in Hrun. unfold bind at 1 in Hrun.
    destruct (for_each _ members h) as [[[pairs|e] h1]|] eqn:Hfor; [|done..].
    pose proof (@load_member_decodes E members) as Hdec.
    destruct (for_each_extends _ _ _ _ _ Hdec Hfor) as [e0 ->].
    injection Hrun as _ Hext. rewrite <- app_assoc in Hext. apply app_inv_head in Hext.
    subst ext. rewrite length_app. cbn [length].
    change (json_depth (JDict members))
      with (S (fold_right (fun '(_, x) d => Nat.max (json_depth x) d) 0%nat members)).
    assert (Forall (fun m : string * json => json_depth m.2 <= length e0)%nat members)
      as Hall.
    { pose proof (Forall2_exists_l _ _ _
                    (Forall2_elem_l _ _ _ (for_each_trace _ _ Hdec _ _ _ Hfor))) as Htrace.
      rewrite Forall_forall in IH.
      eapply Forall_impl; [exact Htrace|].
      intros [k x] ([k' y] & Hx & pre & mid & post & Hh & Hl).
      unfold bind in Hl.
      destruct (load x (h ++ pre)) as [[[a|e] h2]|] eqn:Hload; [|done..].
      injection Hl as _ _ ->.
      pose proof (IH (k, x) Hx (h ++ pre) a mid Hload) as Hd.
      rewrite <- !app_assoc in Hh. apply app_inv_head in Hh. subst e0.
      rewrite !length_app. cbn [snd] in *. lia. }
    pose proof (fold_max_bound (fun m : string * json => json_depth m.2) members
                  (length e0) Hall) as Hb.
    assert (fold_right (fun '(_, x) d => Nat.max (json_depth x) d) 0%nat members
            = fold_right (fun m d => Nat.max (json_depth m.2) d) 0%nat members) as ->.
    { clear. induction members as [|[k x] ms IHm]; simpl; [done | by rewrite IHm]. }
    lia.
Qed.

(** What the dict of decoded pairs holds under a key: what was decoded from
    the member that [json_member] picks. *)
Lemma dict_of_pairs_lookup (T : json -> value -> Prop) (members : list (string * json))
    (pairs : list (string * value)) (key : string) :
  Forall2 (fun (m : string * json) (p : string * value) => m.1 = p.1 /\ T m.2 p.2)
    members pairs ->
  match json_member key members with
  | None => dict_lookup (dict_of_pairs pairs) key = None
  | Some x => exists v, dict_lookup (dict_of_pairs pairs) key = Some v /\ T x v
  end.
Proof.
  intros Hpairs. unfold dict_of_pairs.
  assert (forall acc : list (string * value),
             match json_member key members with
             | None =>
                 dict_lookup (fold_left (fun items kv => dict_set items kv.1 kv.2) pairs acc) key
                 = dict_lookup acc key
             | Some x =>
                 exists v,
                   dict_lookup (fold_left (fun items kv => dict_set items kv.1 kv.2) pairs acc)
                     key = Some v /\ T x v
             end) as Hgen.
  { induction Hpairs as [|[k x] [k' v] ms ps [Hk Hv] _ IH]; intros acc; [done|].
    cbn [fst snd] in Hk, Hv. subst k'. cbn [fold_left json_member fst snd].
    specialize (IH (dict_set acc k v)).
    destruct (json_member key ms) as [y|]; [done|].
    rewrite IH, dict_lookup_dict_set.
    destruct (String.eqb k key); [by exists v | done]. }
  specialize (Hgen []). by destruct (json_member key members).
Qed.

Lemma load_object_member {E} (c : list (string * json)) (h h1 : heap) (cl : loc)
    (key : string) :
  @load E (JDict c) h = Some (Ret (VRef cl), h1) ->
  exists items : list (string * value),
    h1 !! cl = Some (ODict items) /\
    match json_member key c with
    | None => dict_lookup items key = None
    | Some x =>
        exists v : value,
          dict_lookup items key = Some v /\
          exists pre mid post : heap,
            h1 = ((h ++ pre) ++ mid) ++ post /\
            @load E x (h ++ pre) = Some (Ret v, (h ++ pre) ++ mid)
    end.
Proof.
  intros Hrun. rewrite load_JDict in Hrun. unfold bind at 1 in Hrun.
  destruct (for_each _ c h) as [[[pairs|e] h0]|] eqn:Hfor; [|done..].
  injection Hrun as <- <-.
  exists (dict_of_pairs pairs). split.
  { rewrite lookup_app_r by lia. by rewrite Nat.sub_diag. }
  apply (dict_of_pairs_lookup
           (fun x v => exists pre mid post : heap,
                h0 ++ [ODict (dict_of_pairs pairs)] = ((h ++ pre) ++ mid) ++ post /\
                @load E x (h ++ pre) = Some (Ret v, (h ++ pre) ++ mid))).
  eapply Forall2_impl;
    [exact (for_each_trace _ _ (@load_member_decodes E c) _ _ _ Hfor)|].
  intros [k x] [k' v] (pre & mid & post & Hh & Hf). unfold bind in Hf.
  destruct (load x (h ++ pre)) as [[[a|e] h2]|] eqn:Hload; [|done..].
  injection Hf as <- <- ->. split; [done|]. cbn [fst snd].
  exists pre, mid, (post ++ [ODict (dict_of_pairs pairs)]).
  split; [|done]. rewrite Hh. by rewrite <- !app_assoc.
Qed.

Section AnswerFacts.
Variable float_repr : Z -> string.
Variable str_repr : string -> string.

Local Abbreviation registry := (MODEL_REGISTRY float_repr str_repr).

(** [str] of a decoded value is [str] of its tree. *)
Lemma load_str {E} (x : json) (h0 mid ext : heap) (v : value) :
  json_wf x = true ->
  @load E x h0 = Some (Ret v, h0 ++ mid) ->
  py_str float_repr str_repr ((h0 ++ mid) ++ ext) v = Some (json_str float_repr str_repr x).
Proof.
  intros Hwf Hload.
  assert (py_repr float_repr str_repr ((h0 ++ mid) ++ ext) v
          = Some (json_repr float_repr str_repr x)) as Hrepr.
  { unfold py_repr. eapply load_repr; eauto.
    pose proof (load_depth x h0 v mid Hload). rewrite !length_app. lia. }
  destruct x as [| b | z | bits | s | elems | members].
  - injection Hload as <- _. exact Hrepr.
  - injection Hload as <- _. exact Hrepr.
  - injection Hload as <- _. exact Hrepr.
  - injection Hload as <- _. exact Hrepr.
  - injection Hload as <- _. reflexivity.
  - rewrite load_JList in Hload. unfold bind, new_list in Hload.
    destruct (for_each load elems h0) as [[[vs|e] h1]|]; [|done..].
    injection Hload as <- _. exact Hrepr.
  - rewrite load_JDict in Hload. unfold bind at 1 in Hload. unfold new_dict in Hload.
    destruct (for_each _ members h0) as [[[pairs|e] h1]|]; [|done..].
    injection Hload as <- _. exact Hrepr.
Qed.

Lemma echo_answer (c : list (string * json)) (h h1 ext : heap) (cl : loc)
    (pp : option loc) (calls : list string) (n : nat) :
  @load raised (JDict c) h = Some (Ret (VRef cl), h1) ->
  json_wf (JDict c) = true ->
  (json_depth (JDict c) + 2 <= n)%nat ->
  answer_status (invoke_model registry (mkMCPRequest "echo-model" cl pp)
                   (World (h1 ++ ext) calls)) = Some 200 /\
  answer_json n (invoke_model registry (mkMCPRequest "echo-model" cl pp)
                   (World (h1 ++ ext) calls))
  = Some (JDict [("model_id", JStr "echo-model"); ("result", JDict [("echo", JDict c)])]).
Proof.
  intros Hload Hwf Hn.
  rewrite (invoke_model_returns registry (mkMCPRequest "echo-model" cl pp)
             (World (h1 ++ ext) calls) echo_model_handler
             (VRef (length (h1 ++ ext))) ((h1 ++ ext) ++ [ODict [("echo", VRef cl)]])
             (MODEL_REGISTRY_echo float_repr str_repr) eq_refl).
  cbn [answer_status answer_json status_code_of w_heap model_id context].
  split; [done|].
  destruct n as [|[|n]]; [lia | lia |].
  apply json_of_dict2 with (v1 := VStr "echo-model") (v2 := VRef (length (h1 ++ ext))).
  - rewrite lookup_app_r by lia. by rewrite Nat.sub_diag.
  - apply json_of_str.
  - apply json_of_dict1 with (v := VRef cl).
    + apply lookup_app_l_Some. rewrite lookup_app_r by lia. by rewrite Nat.sub_diag.
    + rewrite <- !app_assoc.
      apply (load_json_of (JDict c) Hwf h (VRef cl) h1 Hload). lia.
Qed.

Lemma greeting_answer (c : list (string * json)) (h h1 ext : heap) (cl : loc)
    (pp : option loc) (calls : list string) (n : nat) :
  @load raised (JDict c) h = Some (Ret (VRef cl), h1) ->
  (forall x, json_member "name" c = Some x -> json_wf x = true) ->
  (2 <= n)%nat ->
  answer_status (invoke_model registry (mkMCPRequest "greeting-model" cl pp)
                   (World (h1 ++ ext) calls)) = Some 200 /\
  answer_json n (invoke_model registry (mkMCPRequest "greeting-model" cl pp)
                   (World (h1 ++ ext) calls))
  = Some (JDict [("model_id", JStr "greeting-model");
                 ("result",
                  JDict [("greeting",
                          JStr ("Hello, "
                                +:+ json_str float_repr str_repr
                                      (match json_member "name" c with
                                       | Some x => x
                                       | None => JStr "World"
                                       end)
                                +:+ "!"))])]).
Proof.
  intros Hload Hwf Hn.
  destruct (load_object_member (E := raised) c h h1 cl "name" Hload)
    as (items & Hitems & Hname).
  set (text := json_str float_repr str_repr
                 (match json_member "name" c with Some x => x | None => JStr "World" end)).
  assert (py_str float_repr str_repr (h1 ++ ext) (dict_get items "name" (VStr "World"))
          = Some text) as Htext.
  { unfold dict_get, text. destruct (json_member "name" c) as [x|].
    - destruct Hname as (v & -> & pre & mid & post & -> & Hx).
      rewrite <- app_assoc.
      exact (load_str (E := raised) x (h ++ pre) mid (post ++ ext) v (Hwf x eq_refl) Hx).
    - by rewrite Hname. }
  rewrite (invoke_model_returns registry
             (mkMCPRequest "greeting-model" cl pp) (World (h1 ++ ext) calls)
             (greeting_model_handler float_repr str_repr) (VRef (length (h1 ++ ext)))
             ((h1 ++ ext) ++ [ODict [("greeting", VStr ("Hello, " +:+ text +:+ "!"))]])
             (MODEL_REGISTRY_greeting float_repr str_repr)
             (greeting_model_handler_run float_repr str_repr cl pp (h1 ++ ext) items text
                (lookup_app_l_Some _ _ _ _ Hitems) Htext)).
  cbn [answer_status answer_json status_code_of w_heap model_id context].
  split; [done|].
  destruct n as [|[|n]]; [lia | lia |].
  apply json_of_dict2 with (v1 := VStr "greeting-model") (v2 := VRef (length (h1 ++ ext))).
  - rewrite lookup_app_r by lia. by rewrite Nat.sub_diag.
  - apply json_of_str.
  - apply json_of_dict1 with (v := VStr ("Hello, " +:+ text +:+ "!")).
    + apply lookup_app_l_Some. rewrite lookup_app_r by lia. by rewrite Nat.sub_diag.
    + apply json_of_str.
Qed.

Lemma not_found_answer (id : string) (cl : loc) (pp : option loc) (w : world) (n : nat) :
  registry !! id = None ->
  (2 <= n)%nat ->
  answer_status (invoke_model registry (mkMCPRequest id cl pp) w) = Some 404 /\
  answer_json n (invoke_model registry (mkMCPRequest id cl pp) w)
  = Some (JDict [("model_id", JStr id);
                 ("error",
                  JDict [("code", JInt 404);
                         ("message", JStr ("Model '" +:+ id +:+ "' not found."))])]).
Proof.
  intros Hmiss Hn.
  rewrite (invoke_model_miss registry (mkMCPRequest id cl pp) w Hmiss).
  cbn [answer_status answer_json status_code_of w_heap model_id].
  split; [done|].
  destruct n as [|[|n]]; [lia | lia |].
  apply json_of_dict2 with (v1 := VStr id) (v2 := VRef (length (w_heap w))).
  - rewrite lookup_app_r by lia.
    by replace (S (length (w_heap w)) - length (w_heap w))%nat with 1%nat by lia.
  - apply json_of_str.
  - apply json_of_dict2 with (v1 := VInt 404)
                             (v2 := VStr ("Model '" +:+ id +:+ "' not found.")).
    + rewrite lookup_app_r by lia. by rewrite Nat.sub_diag.
    + by destruct n.
    + apply json_of_str.
Qed.
End AnswerFacts.

Lemma json_member_elem (key : string) (members : list (string * json)) (x : json) :
  json_member key members = Some x -> (key, x) ∈ members.
Proof.
  induction members as [|[k y] rest IH]; simpl; [done|].
  destruct (json_member key rest) as [z|].
  - intros [= ->]. right. by apply IH.
  - destruct (String.eqb_spec k key) as [->|_]; [|done]. intros [= ->]. by left.
Qed.

Lemma json_wf_member (key : string) (members : list (string * json)) (x : json) :
  json_wf (JDict members) = true -> json_member key members = Some x ->
  json_wf x = true /\ (json_depth x < json_depth (JDict members))%nat.
Proof.
  intros Hwf Hx. apply json_member_elem in Hx.
  change (json_wf (JDict members))
    with (distinct (map fst members) && forallb (fun '(_, x) => json_wf x) members) in Hwf.
  apply andb_true_iff in Hwf as [_ Hwf]. rewrite forallb_forall in Hwf.
  split.
  - by apply (Hwf (key, x)), list_elem_of_In.
  - change (json_depth (JDict members))
      with (S (fold_right (fun '(_, x) d => Nat.max (json_depth x) d) 0%nat members)).
    pose proof (json_depth_member members key x Hx). lia.
Qed.


